(** * Brave Search MCP server, HTTP protocol module ([src/protocols/http.ts])

    A shallow embedding of the analytics store, the session registry and the
    request dispatcher of [src/protocols/http.ts], with the properties the
    specification states about them.

    Conventions of the embedding.
    - A JavaScript string is a [string]: HTTP header values reach the program
      decoded one byte per code unit, so a character of a header is an
      [ascii].
    - A [Record<string, number>] and the [Map] of sessions are [gmap]s keyed
      by [string].  Counters are [Z]: the program only adds integers, which a
      JavaScript number represents exactly below 2^53.
      The records are plain objects: under a name that every object
      inherits ([constructor], [toString], [__proto__], ...) and that the
      record does not hold itself, [m[k] || 0] reads the inherited value and
      not a count.  [updateCount] is the update with these names, and a
      statement about the count under a key says which keys it is for.
    - The module-level variables [analytics] and [transports] are threaded
      explicitly.  Every reading of the clock ([new Date().toISOString()])
      is an argument of the function that reads it.
    - Code outside this module (the MCP SDK transport, [createMcpServer],
      the schema validator) is a [Variable] of the section that uses it.
    - A handler runs from its first statement to its last; what other
      requests do while it awaits is not part of a run. *)

From stdpp Require Import gmap strings list fin_maps pretty sorting.
From Stdlib Require Import ZArith Ascii String.

Local Open Scope Z_scope.
Local Open Scope string_scope.

(** ** JavaScript values used by the module *)

Module JS.

(** [x || d] on [string | undefined]: the empty string is falsy. *)
Definition truthy (s : string) : bool :=
  match s with
  | EmptyString => false
  | String _ _ => true
  end.

Definition or (a b : option string) : option string :=
  match a with
  | Some s => if truthy s then Some s else b
  | None => b
  end.

Definition or_default (a : option string) (d : string) : string :=
  match a with
  | Some s => if truthy s then s else d
  | None => d
  end.

(** A [string | undefined] that [||] passes over. *)
Definition falsy (a : option string) : Prop := a = None \/ a = Some "".

(** [n || 0] on [number | undefined]. *)
Definition or_zero (n : option Z) : Z :=
  match n with
  | Some z => z
  | None => 0
  end.

(** [s.substring(0, n)]: the first [n] code units, or all of [s] when it is
    shorter. *)
Definition substring_to (n : nat) (s : string) : string :=
  String.substring 0 n s.

(** [s.split(',')[0]]: what precedes the first comma. *)
Fixpoint split_comma_head (s : string) : string :=
  match s with
  | EmptyString => EmptyString
  | String c s' =>
      if Ascii.eqb c ","%char then EmptyString
      else String c (split_comma_head s')
  end.

(** White space and line terminators of ECMAScript among the code units
    0..255: TAB, LF, VT, FF, CR, SP and NBSP. *)
Definition is_white_space (c : ascii) : bool :=
  let n := nat_of_ascii c in
  (Nat.eqb n 9 || Nat.eqb n 10 || Nat.eqb n 11 || Nat.eqb n 12
   || Nat.eqb n 13 || Nat.eqb n 32 || Nat.eqb n 160)%bool.

Fixpoint trimStart (s : string) : string :=
  match s with
  | EmptyString => EmptyString
  | String c s' => if is_white_space c then trimStart s' else s
  end.

Fixpoint trimEnd (s : string) : string :=
  match s with
  | EmptyString => EmptyString
  | String c s' =>
      match trimEnd s' with
      | EmptyString => if is_white_space c then EmptyString else String c EmptyString
      | r => String c r
      end
  end.

Definition trim (s : string) : string := trimEnd (trimStart s).

(** A JSON document, as [JSON.parse] returns it and [res.json] sends it.
    The properties of an object are listed with their keys. *)
#[local] Unset Elimination Schemes.
Inductive json : Type :=
  | JNull
  | JBool (b : bool)
  | JNum (n : Z)
  | JStr (s : string)
  | JArr (items : list json)
  | JObj (props : list (string * json)).
#[local] Set Elimination Schemes.

(** [o[k]] on a parsed object. *)
Fixpoint assoc (k : string) (props : list (string * json)) : option json :=
  match props with
  | [] => None
  | (k', v) :: rest => if String.eqb k k' then Some v else assoc k rest
  end.

Definition prop (k : string) (j : json) : option json :=
  match j with
  | JObj props => assoc k props
  | _ => None
  end.

End JS.

(** ** The analytics state *)

(** An entry of [recentToolCalls]. *)
Record ToolCall := {
  tool : string;
  timestamp : string;
  clientIp : string;
  userAgent : string;
}.

(** [interface Analytics]. *)
Record Analytics := {
  serverStartTime : string;
  totalRequests : Z;
  totalToolCalls : Z;
  requestsByMethod : gmap string Z;
  requestsByEndpoint : gmap string Z;
  toolCalls : gmap string Z;
  recentToolCalls : list ToolCall;
  clientsByIp : gmap string Z;
  clientsByUserAgent : gmap string Z;
  hourlyRequests : gmap string Z;
}.

Definition MAX_RECENT_CALLS : nat := 100.

(** The initial value of [analytics]; [now] is the clock at module load. *)
Definition initialAnalytics (now : string) : Analytics := {|
  serverStartTime := now;
  totalRequests := 0;
  totalToolCalls := 0;
  requestsByMethod := ∅;
  requestsByEndpoint := ∅;
  toolCalls := ∅;
  recentToolCalls := [];
  clientsByIp := ∅;
  clientsByUserAgent := ∅;
  hourlyRequests := ∅;
|}.

(** ** Requests *)

(** A value of [req.query]: a string, or a repeated or bracketed parameter
    (an array or an object, never strictly equal to a string). *)
Inductive QueryValue :=
  | QString (s : string)
  | QArray (l : list string)
  | QObject (props : list (string * string)).

(** What the module reads of an Express request.  [B] is the type at which
    a handler uses [req.body]; [None] is [undefined]. *)
Record Request (B : Type) := {
  method : string;
  headers : gmap string string;
  ip : option string;
  remoteAddress : option string;
  query : gmap string QueryValue;
  body : option B;
}.
Arguments method {B} _.
Arguments headers {B} _.
Arguments ip {B} _.
Arguments remoteAddress {B} _.
Arguments query {B} _.
Arguments body {B} _.

(** ** Tracking *)

(** [m[k] = (m[k] || 0) + n], for a key the record holds or that is not an
    inherited name (see [updateCount] for the others). *)
Definition add_count (k : string) (n : Z) (m : gmap string Z) : gmap string Z :=
  <[k := JS.or_zero (m !! k) + n]> m.

(** The address a request is attributed to:
    [x-forwarded-for?.split(',')[0]?.trim() || req.ip
     || req.socket.remoteAddress || 'unknown']. *)
Definition forwardedFor {B} (req : Request B) : option string :=
  (fun xff => JS.trim (JS.split_comma_head xff))
    <$> headers req !! "x-forwarded-for".

Definition clientIpOf {B} (req : Request B) : string :=
  JS.or_default
    (JS.or (JS.or (forwardedFor req) (ip req)) (remoteAddress req))
    "unknown".

(** [(req.headers['user-agent'] || 'unknown').substring(0, 50)] *)
Definition userAgentOf {B} (req : Request B) : string :=
  JS.substring_to 50 (JS.or_default (headers req !! "user-agent") "unknown").

(** [trackRequest(req, endpoint)]; [now] is [new Date().toISOString()]. *)
Definition trackRequest {B} (req : Request B) (endpoint : string) (now : string)
    (analytics : Analytics) : Analytics :=
  let hour := JS.substring_to 13 now in
  {|
    serverStartTime := serverStartTime analytics;
    totalRequests := totalRequests analytics + 1;
    totalToolCalls := totalToolCalls analytics;
    requestsByMethod := add_count (method req) 1 (requestsByMethod analytics);
    requestsByEndpoint := add_count endpoint 1 (requestsByEndpoint analytics);
    toolCalls := toolCalls analytics;
    recentToolCalls := recentToolCalls analytics;
    clientsByIp := add_count (clientIpOf req) 1 (clientsByIp analytics);
    clientsByUserAgent := add_count (userAgentOf req) 1 (clientsByUserAgent analytics);
    hourlyRequests := add_count hour 1 (hourlyRequests analytics);
  |}.

(** [arr.pop()]: drops the last element. *)
Definition pop {A} (l : list A) : list A := removelast l.

(** The record [trackToolCall] builds. *)
Definition toolCallOf {B} (toolName : string) (req : Request B) (now : string)
    : ToolCall := {|
  tool := toolName;
  timestamp := now;
  clientIp := clientIpOf req;
  userAgent := userAgentOf req;
|}.

(** [trackToolCall(toolName, req)]: [unshift], then one [pop] when the
    length exceeds [MAX_RECENT_CALLS]. *)
Definition trackToolCall {B} (toolName : string) (req : Request B) (now : string)
    (analytics : Analytics) : Analytics :=
  let unshifted := toolCallOf toolName req now :: recentToolCalls analytics in
  {|
    serverStartTime := serverStartTime analytics;
    totalRequests := totalRequests analytics;
    totalToolCalls := totalToolCalls analytics + 1;
    requestsByMethod := requestsByMethod analytics;
    requestsByEndpoint := requestsByEndpoint analytics;
    toolCalls := add_count toolName 1 (toolCalls analytics);
    recentToolCalls :=
      if (MAX_RECENT_CALLS <? List.length unshifted)%nat then pop unshifted
      else unshifted;
    clientsByIp := clientsByIp analytics;
    clientsByUserAgent := clientsByUserAgent analytics;
    hourlyRequests := hourlyRequests analytics;
  |}.

(** ** Persistence *)

(** What [ANALYTICS_FILE] holds: text on which [JSON.parse] throws, or the
    text of a JSON document.  [JSON.parse (JSON.stringify v)] is [v]. *)
Inductive FileData :=
  | Unparseable
  | Document (j : JS.json).

(** The disk as the module sees it: [None] when the file does not exist. *)
Definition Disk := option FileData.

(** How [fs.writeFileSync] ends: it succeeds, or it throws and leaves the
    disk in a state of the environment's choosing. *)
Inductive WriteOutcome :=
  | WriteOk
  | WriteThrows (after : Disk).

(** [JSON.stringify] of the parts of the state. *)
Definition countsToJSON (m : gmap string Z) : JS.json :=
  JS.JObj ((fun kv => (kv.1, JS.JNum kv.2)) <$> map_to_list m).

Definition toolCallToJSON (c : ToolCall) : JS.json :=
  JS.JObj [("tool", JS.JStr (tool c)); ("timestamp", JS.JStr (timestamp c));
           ("clientIp", JS.JStr (clientIp c)); ("userAgent", JS.JStr (userAgent c))].

Definition analyticsToJSON (a : Analytics) : JS.json :=
  JS.JObj [
    ("serverStartTime", JS.JStr (serverStartTime a));
    ("totalRequests", JS.JNum (totalRequests a));
    ("totalToolCalls", JS.JNum (totalToolCalls a));
    ("requestsByMethod", countsToJSON (requestsByMethod a));
    ("requestsByEndpoint", countsToJSON (requestsByEndpoint a));
    ("toolCalls", countsToJSON (toolCalls a));
    ("recentToolCalls", JS.JArr (toolCallToJSON <$> recentToolCalls a));
    ("clientsByIp", countsToJSON (clientsByIp a));
    ("clientsByUserAgent", countsToJSON (clientsByUserAgent a));
    ("hourlyRequests", countsToJSON (hourlyRequests a))
  ].

(** Reading a parsed document at the types of [interface Analytics]
    ([JSON.parse(data) as Analytics]).  The cast is unchecked: [None] marks
    a property that is not of the declared type. *)
Definition asNumber (j : JS.json) : option Z :=
  match j with JS.JNum n => Some n | _ => None end.

Definition asString (j : JS.json) : option string :=
  match j with JS.JStr s => Some s | _ => None end.

Definition asCounts (j : JS.json) : option (gmap string Z) :=
  match j with
  | JS.JObj props =>
      list_to_map <$> mapM (fun kv => pair kv.1 <$> asNumber kv.2) props
  | _ => None
  end.

Definition asToolCall (j : JS.json) : option ToolCall :=
  t ← JS.prop "tool" j ≫= asString;
  ts ← JS.prop "timestamp" j ≫= asString;
  i ← JS.prop "clientIp" j ≫= asString;
  u ← JS.prop "userAgent" j ≫= asString;
  Some {| tool := t; timestamp := ts; clientIp := i; userAgent := u |}.

Definition asToolCalls (j : JS.json) : option (list ToolCall) :=
  match j with
  | JS.JArr items => mapM asToolCall items
  | _ => None
  end.

(** Truthiness of a parsed value. *)
Definition jsonTruthy (j : JS.json) : bool :=
  match j with
  | JS.JNull => false
  | JS.JBool b => b
  | JS.JNum n => negb (n =? 0)%Z
  | JS.JStr s => JS.truthy s
  | JS.JArr _ | JS.JObj _ => true
  end.

(** [loaded.serverStartTime || now]: the stored time when it is a non-empty
    string, [now] when it is absent or falsy, and [None] when it is a truthy
    value that is not a string, which the code keeps although it is not a
    start time of an [Analytics]. *)
Definition startTimeOr (loaded : JS.json) (now : string) : option string :=
  match JS.prop "serverStartTime" loaded with
  | None => Some now
  | Some (JS.JStr s) => Some (if JS.truthy s then s else now)
  | Some v => if jsonTruthy v then None else Some now
  end.

(** [{ ...loaded, serverStartTime: loaded.serverStartTime || now }] *)
Definition spreadLoaded (loaded : JS.json) (now : string) : option Analytics :=
  tr ← JS.prop "totalRequests" loaded ≫= asNumber;
  tc ← JS.prop "totalToolCalls" loaded ≫= asNumber;
  bm ← JS.prop "requestsByMethod" loaded ≫= asCounts;
  be ← JS.prop "requestsByEndpoint" loaded ≫= asCounts;
  tcs ← JS.prop "toolCalls" loaded ≫= asCounts;
  rc ← JS.prop "recentToolCalls" loaded ≫= asToolCalls;
  ci ← JS.prop "clientsByIp" loaded ≫= asCounts;
  cu ← JS.prop "clientsByUserAgent" loaded ≫= asCounts;
  hr ← JS.prop "hourlyRequests" loaded ≫= asCounts;
  start ← startTimeOr loaded now;
  Some {|
    serverStartTime := start;
    totalRequests := tr;
    totalToolCalls := tc;
    requestsByMethod := bm;
    requestsByEndpoint := be;
    toolCalls := tcs;
    recentToolCalls := rc;
    clientsByIp := ci;
    clientsByUserAgent := cu;
    hourlyRequests := hr;
  |}.

(** [loadAnalytics()].  The state is kept when the file is absent, when
    [JSON.parse] throws and when the document is [null] (reading
    [loaded.serverStartTime] throws); all three are caught or skipped.
    The result is [None] when the document is not an [Analytics]. *)
Definition loadAnalytics (now : string) (disk : Disk) (analytics : Analytics)
    : option Analytics :=
  match disk with
  | None => Some analytics
  | Some Unparseable => Some analytics
  | Some (Document JS.JNull) => Some analytics
  | Some (Document loaded) => spreadLoaded loaded now
  end.

(** [saveAnalytics()]: the whole state overwrites the file; a failure is
    caught and logged. *)
Definition saveAnalytics (write : WriteOutcome) (analytics : Analytics)
    (disk : Disk) : Disk :=
  match write with
  | WriteOk => Some (Document (analyticsToJSON analytics))
  | WriteThrows after => after
  end.

(** ** Responses *)

(** The Express response object: the status that the next send will carry,
    whether the headers have left, and what was sent with which status. *)
Record Response := {
  statusCode : Z;
  headersSent : bool;
  sent : list (Z * JS.json);
}.

Definition freshResponse : Response :=
  {| statusCode := 200; headersSent := false; sent := [] |}.

(** [res.status(code)] *)
Definition status (code : Z) (res : Response) : Response :=
  {| statusCode := code; headersSent := headersSent res; sent := sent res |}.

(** [res.json(j)] *)
Definition json (j : JS.json) (res : Response) : Response :=
  {| statusCode := statusCode res;
     headersSent := true;
     sent := sent res ++ [(statusCode res, j)] |}.

Definition genericServerError : JS.json :=
  JS.JObj [("id", JS.JNull);
           ("jsonrpc", JS.JStr "2.0");
           ("error", JS.JObj [("code", JS.JNum (-32603));
                              ("message", JS.JStr "Internal server error")])].

Definition yieldGenericServerError (res : Response) : Response :=
  json genericServerError (status 500 res).

(** ** Request bodies *)

(** The body of a request to [/mcp], at the type the handler reads it:
    [body.method] and [body.params?.name] are strings when present. *)
Module Body.
Record Params := { name : option string }.
Record t := { method : option string; params : option Params }.
End Body.

(** The body of a request to [/analytics/import]: the sections are optional,
    a section of counts lists the entries of the object
    ([Object.entries]), and a count is a number ([count as number]). *)
Module ImportData.
Record Summary := {
  totalRequests : option Z;
  totalToolCalls : option Z;
}.
Record Breakdown := {
  byMethod : option (list (string * Z));
  byEndpoint : option (list (string * Z));
  byTool : option (list (string * Z));
}.
Record t := { summary : option Summary; breakdown : option Breakdown }.
End ImportData.

(** ** Transports *)

(** The options [getTransport] passes to [new StreamableHTTPServerTransport]:
    [sessionIdGenerator] is [undefined] or [() => randomUUID()], and
    [onsessioninitialized] is absent or
    [(sessionId) => transports.set(sessionId, transport)]. *)
Inductive SessionIdGenerator := RandomUUID.
Inductive SessionCallback := SetInTransports.

(** A transport object; [tid] is its identity (the rank of its creation). *)
Record Transport := {
  tid : nat;
  sessionIdGenerator : option SessionIdGenerator;
  onsessioninitialized : option SessionCallback;
}.

(** A call returns or throws; [Thrown e] carries [String(error)]. *)
Inductive Outcome (A : Type) :=
  | Returned (a : A)
  | Thrown (e : string).
Arguments Returned {A} _.
Arguments Thrown {A} _.

(** What [transport.handleRequest(req, res, req.body)] did: the response
    object as it left it, the session id it generated and passed to
    [onsessioninitialized] (if it initialized a session), and how it ended. *)
Record HandleResult := {
  hr_res : Response;
  hr_initialized : option string;
  hr_outcome : Outcome unit;
}.

(** The order of the effects of a handler (ghost state). *)
Inductive Event :=
  | EvTrackRequest (endpoint : string)
  | EvTrackToolCall (toolName : string)
  | EvNewTransport (t : nat)
  | EvConnect (t : nat)
  | EvHandleRequest (t : nat)
  | EvSaveAnalytics.

(** Events of resolving and invoking, as opposed to those of tracking. *)
Definition isTransportEvent (ev : Event) : Prop :=
  match ev with
  | EvNewTransport _ | EvConnect _ | EvHandleRequest _ => True
  | _ => False
  end.

(** [req.body && req.body.method === 'tools/call' && req.body.params?.name]:
    the tool name when the request is a tool invocation. *)
Definition toolInvocation (req : Request Body.t) : option string :=
  match body req with
  | None => None
  | Some b =>
      match Body.method b with
      | Some m =>
          if String.eqb m "tools/call" then
            match Body.params b with
            | Some p =>
                match Body.name p with
                | Some n => if JS.truthy n then Some n else None
                | None => None
                end
            | None => None
            end
          else None
      | None => None
      end
  end.

(** ** Merging an import *)

(** [for (const [k, count] of Object.entries(section)) m[k] = (m[k] || 0) + count] *)
Definition mergeCounts (section : option (list (string * Z))) (m : gmap string Z)
    : gmap string Z :=
  match section with
  | Some entries => foldl (fun acc kv => add_count kv.1 kv.2 acc) m entries
  | None => m
  end.

(** The body of the [try] of the import handler up to [saveAnalytics()]:
    the five guarded updates, each on a field of its own. *)
Definition mergeImport (importData : ImportData.t) (a : Analytics) : Analytics :=
  let summary := ImportData.summary importData in
  let breakdown := ImportData.breakdown importData in
  {|
    serverStartTime := serverStartTime a;
    totalRequests :=
      match summary with
      | Some s => totalRequests a + JS.or_zero (ImportData.totalRequests s)
      | None => totalRequests a
      end;
    totalToolCalls :=
      match summary with
      | Some s => totalToolCalls a + JS.or_zero (ImportData.totalToolCalls s)
      | None => totalToolCalls a
      end;
    requestsByMethod := mergeCounts (breakdown ≫= ImportData.byMethod) (requestsByMethod a);
    requestsByEndpoint :=
      mergeCounts (breakdown ≫= ImportData.byEndpoint) (requestsByEndpoint a);
    toolCalls := mergeCounts (breakdown ≫= ImportData.byTool) (toolCalls a);
    recentToolCalls := recentToolCalls a;
    clientsByIp := clientsByIp a;
    clientsByUserAgent := clientsByUserAgent a;
    hourlyRequests := hourlyRequests a;
  |}.

(** [process.env.ANALYTICS_IMPORT_KEY && importKey !== process.env.ANALYTICS_IMPORT_KEY] *)
Definition importKeyRejected (ANALYTICS_IMPORT_KEY : option string)
    (importKey : option QueryValue) : bool :=
  match ANALYTICS_IMPORT_KEY with
  | Some secret =>
      JS.truthy secret &&
      match importKey with
      | Some (QString k) => negb (String.eqb k secret)
      | _ => true
      end
  | None => false
  end.

(** What a section of an import supplies for key [k]: the sum of the counts
    listed under [k], and nothing for a missing section. *)
Definition supplied (section : option (list (string * Z))) (k : string) : Z :=
  match section with
  | Some entries =>
      foldr (fun kv acc => if String.eqb kv.1 k then kv.2 + acc else acc) 0 entries
  | None => 0
  end.

(** A run of tool calls: the name, the request and the clock of each. *)
Definition trackToolCalls {B} (calls : list (string * Request B * string))
    (a : Analytics) : Analytics :=
  foldl (fun acc c => trackToolCall c.1.1 c.1.2 c.2 acc) a calls.

(** ** Uptime *)

(** The three numbers [getUptime] prints, from [diff = now - start] in
    milliseconds: [Math.floor] of a quotient is [Z.div], [%] is [Z.rem]. *)
Definition uptimeDays (diff : Z) : Z := diff / (1000 * 60 * 60 * 24).

Definition uptimeHours (diff : Z) : Z :=
  Z.rem diff (1000 * 60 * 60 * 24) / (1000 * 60 * 60).

Definition uptimeMinutes (diff : Z) : Z :=
  Z.rem diff (1000 * 60 * 60) / (1000 * 60).

(** [getUptime()]; [parse] is [new Date(s).getTime()], [None] when it is
    [NaN], and [now] is [Date.now()].  With [NaN] no comparison holds and
    the last template prints it. *)
Definition getUptime (parse : string -> option Z) (now : Z)
    (analytics : Analytics) : string :=
  match parse (serverStartTime analytics) with
  | None => "NaNm"
  | Some start =>
      let diff := now - start in
      let days := uptimeDays diff in
      let hours := uptimeHours diff in
      let minutes := uptimeMinutes diff in
      if (0 <? days)%Z then
        pretty days +:+ "d " +:+ pretty hours +:+ "h " +:+ pretty minutes +:+ "m"
      else if (0 <? hours)%Z then pretty hours +:+ "h " +:+ pretty minutes +:+ "m"
      else pretty minutes +:+ "m"
  end.

(** ** Runs of requests and sums of counts *)

(** A run of tracked requests: the request, the endpoint and the clock of
    each. *)
Definition trackRequests {B} (reqs : list (Request B * string * string))
    (a : Analytics) : Analytics :=
  foldl (fun acc r => trackRequest r.1.1 r.1.2 r.2 acc) a reqs.

(** The sum of the counts of a record. *)
Definition sumCounts (m : gmap string Z) : Z :=
  map_fold (fun _ v acc => v + acc) 0 m.

(** Every request is in each breakdown once, every tool call under one
    tool. *)
Definition countedOnce (a : Analytics) : Prop :=
  sumCounts (requestsByMethod a) = totalRequests a
  /\ sumCounts (requestsByEndpoint a) = totalRequests a
  /\ sumCounts (clientsByIp a) = totalRequests a
  /\ sumCounts (clientsByUserAgent a) = totalRequests a
  /\ sumCounts (hourlyRequests a) = totalRequests a
  /\ sumCounts (toolCalls a) = totalToolCalls a.

(** What the handlers record, in the order they record it. *)
Inductive Tracked (B : Type) :=
  | TrackedRequest (req : Request B) (endpoint now : string)
  | TrackedToolCall (toolName : string) (req : Request B) (now : string).
Arguments TrackedRequest {B} _ _ _.
Arguments TrackedToolCall {B} _ _ _.

Definition track {B} (ev : Tracked B) (a : Analytics) : Analytics :=
  match ev with
  | TrackedRequest req endpoint now => trackRequest req endpoint now a
  | TrackedToolCall toolName req now => trackToolCall toolName req now a
  end.

Definition trackAll {B} (evs : list (Tracked B)) (a : Analytics) : Analytics :=
  foldl (fun acc ev => track ev acc) a evs.

(** How many elements of a list pass a test. *)
Definition countIf {A} (p : A -> bool) (l : list A) : Z :=
  Z.of_nat (List.length (List.filter p l)).

Definition isRequest {B} (ev : Tracked B) : bool :=
  match ev with TrackedRequest _ _ _ => true | TrackedToolCall _ _ _ => false end.

Definition isRequestTo {B} (endpoint : string) (ev : Tracked B) : bool :=
  match ev with
  | TrackedRequest _ e _ => String.eqb e endpoint
  | TrackedToolCall _ _ _ => false
  end.

Definition isToolCall {B} (ev : Tracked B) : bool := negb (isRequest ev).

Definition isToolCallOf {B} (toolName : string) (ev : Tracked B) : bool :=
  match ev with
  | TrackedRequest _ _ _ => false
  | TrackedToolCall t _ _ => String.eqb t toolName
  end.

(** The ends of a string, to say what [trim] leaves. *)
Definition firstChar (s : string) : option ascii :=
  match s with
  | EmptyString => None
  | String c _ => Some c
  end.

Fixpoint lastChar (s : string) : option ascii :=
  match s with
  | EmptyString => None
  | String c EmptyString => Some c
  | String _ s' => lastChar s'
  end.

(** ** The API key of a request *)

(** [s.replace(pat, '')]: the first occurrence of [pat] is taken out. *)
Fixpoint stripPrefix (pat s : string) : option string :=
  match pat with
  | EmptyString => Some s
  | String p pat' =>
      match s with
      | EmptyString => None
      | String c s' => if Ascii.eqb p c then stripPrefix pat' s' else None
      end
  end.

Fixpoint replaceFirst (pat s : string) {struct s} : string :=
  match stripPrefix pat s with
  | Some rest => rest
  | None =>
      match s with
      | EmptyString => EmptyString
      | String c s' => String c (replaceFirst pat s')
      end
  end.

(** Truthiness of a value of [req.query]: arrays and objects are truthy. *)
Definition queryTruthy (v : QueryValue) : bool :=
  match v with
  | QString s => JS.truthy s
  | QArray _ | QObject _ => true
  end.

(** A query parameter that [||] passes over. *)
Definition queryFalsy (v : option QueryValue) : Prop :=
  v = None \/ v = Some (QString "").

(** [a || b] where [a] is a value of [req.query]. *)
Definition queryOr (a : option QueryValue) (b : QueryValue) : QueryValue :=
  match a with
  | Some v => if queryTruthy v then v else b
  | None => b
  end.

(** The value of [apiKey] in [extractApiKey]:
    [req.query.apiKey || req.query.api_key || req.headers['x-api-key']
     || req.headers['authorization']?.replace('Bearer ', '')
     || process.env.BRAVE_API_KEY || '']. *)
Definition apiKeyOf {B} (req : Request B) (BRAVE_API_KEY : option string)
    : QueryValue :=
  queryOr (query req !! "apiKey")
    (queryOr (query req !! "api_key")
       (QString
          (JS.or_default
             (JS.or
                (JS.or (headers req !! "x-api-key")
                   (replaceFirst "Bearer " <$> headers req !! "authorization"))
                BRAVE_API_KEY)
             ""))).

(** [extractApiKey]: the argument of [setApiKey] when it is called; in both
    cases [next()] follows. *)
Definition extractApiKey {B} (req : Request B) (BRAVE_API_KEY : option string)
    : option QueryValue :=
  let apiKey := apiKeyOf req BRAVE_API_KEY in
  if queryTruthy apiKey then Some apiKey else None.

(** ** Reports *)

(** [arr.sort(compare)]: the sort is stable, so for a consistent [compare]
    its result is the one of the insertion below, which moves an element
    behind those that [compare] puts strictly before it. *)
Fixpoint insertSorted {A} (compare : A -> A -> Z) (x : A) (l : list A) : list A :=
  match l with
  | [] => [x]
  | y :: l' =>
      if (0 <? compare x y)%Z then y :: insertSorted compare x l'
      else x :: y :: l'
  end.

Definition sortWith {A} (compare : A -> A -> Z) (l : list A) : list A :=
  foldr (insertSorted compare) [] l.

(** [([, a], [, b]) => b - a] *)
Definition byCountDescending (x y : string * Z) : Z := y.2 - x.2.

(** [Object.entries(analytics.toolCalls).sort(([, a], [, b]) => b - a)];
    [entries] is [Object.entries], which lists a record in the order of its
    keys in the object. *)
Definition toolsByUsage (entries : gmap string Z -> list (string * Z))
    (a : Analytics) : list (string * Z) :=
  sortWith byCountDescending (entries (toolCalls a)).

(** [Object.entries(analytics.hourlyRequests)
      .sort(([a], [b]) => b.localeCompare(a)).slice(0, 24).reverse()] *)
Definition last24Hours (entries : gmap string Z -> list (string * Z))
    (localeCompare : string -> string -> Z) (a : Analytics)
    : list (string * Z) :=
  reverse
    (take 24
       (sortWith (fun x y => localeCompare y.1 x.1) (entries (hourlyRequests a)))).

(** [.reduce((acc, [k, v]) => ({ ...acc, [k]: v }), {})]: the properties
    in the order they are added; an engine lists those with integer-like
    keys first. *)
Definition objectOf (l : list (string * Z)) : JS.json :=
  JS.JObj ((fun kv => (kv.1, JS.JNum kv.2)) <$> l).


(** ** Records as plain objects *)

(** The names every plain object inherits from [Object.prototype]. *)
Definition inheritedNames : list string :=
  ["constructor"; "__defineGetter__"; "__defineSetter__"; "hasOwnProperty";
   "__lookupGetter__"; "__lookupSetter__"; "isPrototypeOf";
   "propertyIsEnumerable"; "toString"; "valueOf"; "__proto__";
   "toLocaleString"].

Definition inherited (k : string) : bool := bool_decide (k ∈ inheritedNames).

(** What [m[k] = (m[k] || 0) + n] makes of a record of counts. *)
Inductive Updated :=
  | Counts (m : gmap string Z)
  | HoldsText (k : string).

(** [m[k] = (m[k] || 0) + n] on the plain object behind a record of counts.
    An own property is read and written as a count.  Without one, the read
    finds what the object inherits: for [__proto__] the prototype, and the
    text that the sum then is is dropped by the setter, so the record is as
    before; for the other inherited names a function, and the text that the
    sum then is becomes the own property, which is no count any more. *)
Definition updateCount (k : string) (n : Z) (m : gmap string Z) : Updated :=
  match m !! k with
  | Some v => Counts (<[k := JS.or_zero (Some v) + n]> m)
  | None =>
      if String.eqb k "__proto__" then Counts m
      else if inherited k then HoldsText k
      else Counts (<[k := JS.or_zero None + n]> m)
  end.

(** The loop over the entries of a section of an import, up to the first
    property that comes to hold text. *)
Fixpoint updateCounts (entries : list (string * Z)) (m : gmap string Z)
    : Updated :=
  match entries with
  | [] => Counts m
  | kv :: rest =>
      match updateCount kv.1 kv.2 m with
      | Counts m' => updateCounts rest m'
      | HoldsText k => HoldsText k
      end
  end.

(** The keys [trackRequest] counts a request under are not inherited
    names. *)
Definition ordinaryRequest {B} (req : Request B) (endpoint now : string) : Prop :=
  inherited (method req) = false
  /\ inherited endpoint = false
  /\ inherited (clientIpOf req) = false
  /\ inherited (userAgentOf req) = false
  /\ inherited (JS.substring_to 13 now) = false.

Definition ordinaryEvent {B} (ev : Tracked B) : Prop :=
  match ev with
  | TrackedRequest req endpoint now => ordinaryRequest req endpoint now
  | TrackedToolCall toolName _ _ => inherited toolName = false
  end.

Definition ordinarySection (section : option (list (string * Z))) : Prop :=
  match section with
  | Some entries => Forall (fun kv => inherited kv.1 = false) entries
  | None => True
  end.

(** No section of the import has an inherited name among its keys. *)
Definition ordinaryImport (importData : ImportData.t) : Prop :=
  ordinarySection (ImportData.breakdown importData ≫= ImportData.byMethod)
  /\ ordinarySection (ImportData.breakdown importData ≫= ImportData.byEndpoint)
  /\ ordinarySection (ImportData.breakdown importData ≫= ImportData.byTool).

(** ** In front of the routes *)

(** The body of a request as the JSON body parser in front of the routes
    finds it: one it rejects, with the status of its error (400 for text
    that does not parse), or the parsed value.  A request without a body
    for it has none. *)
Inductive RawBody :=
  | Rejected (code : Z)
  | Parsed (b : Body.t).

(** [req.body] after the parser. *)
Definition parsedBody (raw : option RawBody) : option Body.t :=
  match raw with
  | Some (Parsed b) => Some b
  | _ => None
  end.

Definition withBody {A B} (req : Request A) (b : option B) : Request B :=
  {| method := method req; headers := headers req; ip := ip req;
     remoteAddress := remoteAddress req; query := query req; body := b |}.

(** A response sent without a JSON body. *)
Definition endResponse (res : Response) : Response :=
  {| statusCode := statusCode res; headersSent := true; sent := sent res |}.

(** ** Sample collaborators and requests *)

Module Sample.

Definition isListToolsRequest (value : option Body.t) : bool :=
  match value with
  | Some b =>
      match Body.method b with
      | Some m => String.eqb m "tools/list"
      | None => false
      end
  | None => false
  end.

Definition connect (t : Transport) (e : unit) : Outcome unit * unit :=
  (Returned tt, tt).

Definition connectThrows (t : Transport) (e : unit) : Outcome unit * unit :=
  (Thrown "Error: server unavailable", tt).

Definition handleRequest (t : Transport) (req : Request Body.t)
    (res : Response) (e : unit) : HandleResult * unit :=
  ({| hr_res := json (JS.JObj [("jsonrpc", JS.JStr "2.0")]) res;
      hr_initialized := None;
      hr_outcome := Returned tt |}, tt).

Definition handleRequestThrows (t : Transport) (req : Request Body.t)
    (res : Response) (e : unit) : HandleResult * unit :=
  ({| hr_res := res; hr_initialized := None;
      hr_outcome := Thrown "Error: handler failed" |}, tt).

Definition handleRequestThrowsLate (t : Transport) (req : Request Body.t)
    (res : Response) (e : unit) : HandleResult * unit :=
  ({| hr_res := json (JS.JObj [("jsonrpc", JS.JStr "2.0")]) res;
      hr_initialized := None;
      hr_outcome := Thrown "Error: stream closed" |}, tt).

Definition request {B} (hs : list (string * string)) (b : option B) : Request B :=
  {| method := "POST"; headers := list_to_map hs; ip := Some "10.0.0.7";
     remoteAddress := Some "10.0.0.7"; query := ∅; body := b |}.

Definition listTools : Body.t :=
  {| Body.method := Some "tools/list"; Body.params := None |}.

Definition callTool (toolName : string) : Body.t :=
  {| Body.method := Some "tools/call";
     Body.params := Some {| Body.name := Some toolName |} |}.

Definition analytics0 : Analytics := initialAnalytics "2025-01-01T00:00:00.000Z".

Definition withRecent (l : list ToolCall) (tools : gmap string Z) : Analytics :=
  {| serverStartTime := serverStartTime analytics0;
     totalRequests := 0; totalToolCalls := 0;
     requestsByMethod := ∅; requestsByEndpoint := ∅; toolCalls := tools;
     recentToolCalls := l;
     clientsByIp := ∅; clientsByUserAgent := ∅; hourlyRequests := ∅ |}.

Definition call (toolName now : string) : ToolCall :=
  {| tool := toolName; timestamp := now; clientIp := "10.0.0.7";
     userAgent := "unknown" |}.

(** A full buffer: 99 calls of one tool after the oldest call. *)
Definition fullAnalytics : Analytics :=
  withRecent (replicate 99 (call "brave_web_search" "2025-01-01T00:00:02.000Z")
              ++ [call "brave_news_search" "2025-01-01T00:00:01.000Z"])
    ∅.

(** [toolCalls["search"]] is 3. *)
Definition searched : Analytics := withRecent [] {["search" := 3]}.

(** An import whose only section is [byTool: {"search": 5}]. *)
Definition searchImport : ImportData.t :=
  {| ImportData.summary := None;
     ImportData.breakdown :=
       Some {| ImportData.byMethod := None; ImportData.byEndpoint := None;
               ImportData.byTool := Some [("search", 5)] |} |}.

(** A session as an initialized transport has registered it. *)
Definition session : Transport :=
  {| tid := 0; sessionIdGenerator := Some RandomUUID;
     onsessioninitialized := Some SetInTransports |}.

Definition sessionId : string := "0b9a3c1e-7d54-4f0a-9e0b-2f6c1d8a4e77".

Definition resumed : Request Body.t :=
  request [("mcp-session-id", sessionId)] (Some (callTool "brave_web_search")).

Definition discovery : Request Body.t := request [] (Some listTools).

(** A session id the server does not know, on a list-tools body. *)
Definition stale : Request Body.t :=
  request [("mcp-session-id", "3d2f0c55-18a1-4b7e-8a67-91c4e0f2b6aa")]
    (Some listTools).

(** The header is there and its value is empty. *)
Definition emptyHeader : Request Body.t :=
  request [("mcp-session-id", "")] (Some listTools).

(** An import of a summary and of one method. *)
Definition methodImport : ImportData.t :=
  {| ImportData.summary :=
       Some {| ImportData.totalRequests := Some 4;
               ImportData.totalToolCalls := None |};
     ImportData.breakdown :=
       Some {| ImportData.byMethod := Some [("POST", 4)];
               ImportData.byEndpoint := None;
               ImportData.byTool := Some [("search", 1)] |} |}.

Definition importRequest (key : option QueryValue) (b : option ImportData.t)
    : Request ImportData.t :=
  {| method := "POST"; headers := ∅; ip := Some "10.0.0.7";
     remoteAddress := Some "10.0.0.7";
     query := match key with Some v => {["key" := v]} | None => ∅ end;
     body := b |}.

(** A transport that initializes a session under [sessionId]. *)
Definition handleRequestInitializes (t : Transport) (req : Request Body.t)
    (res : Response) (e : unit) : HandleResult * unit :=
  ({| hr_res := json (JS.JObj [("jsonrpc", JS.JStr "2.0")]) res;
      hr_initialized := Some sessionId;
      hr_outcome := Returned tt |}, tt).

Definition initialize : Request Body.t :=
  request [] (Some {| Body.method := Some "initialize"; Body.params := None |}).

(** A document written by a version that kept no start time. *)
Definition withoutStartTime : JS.json :=
  JS.JObj [("totalRequests", JS.JNum 7);
           ("totalToolCalls", JS.JNum 2);
           ("requestsByMethod", JS.JObj [("POST", JS.JNum 7)]);
           ("requestsByEndpoint", JS.JObj [("/mcp", JS.JNum 7)]);
           ("toolCalls", JS.JObj [("brave_web_search", JS.JNum 2)]);
           ("recentToolCalls", JS.JArr []);
           ("clientsByIp", JS.JObj [("10.0.0.7", JS.JNum 7)]);
           ("clientsByUserAgent", JS.JObj [("unknown", JS.JNum 7)]);
           ("hourlyRequests", JS.JObj [("2025-01-01T00", JS.JNum 7)])].

(** A clock: the milliseconds of its one known time. *)
Definition parse (s : string) : option Z :=
  if String.eqb s "2025-01-01T00:00:00.000Z" then Some 1735689600000 else None.

Definition forwarded : Request Body.t :=
  request [("x-forwarded-for", " 203.0.113.9 , 10.0.0.1")] None.

Definition bearer : Request Body.t :=
  request [("authorization", "Bearer BSA-key-1")] None.

Definition setApiKey (key : QueryValue) (e : unit) : Outcome unit * unit :=
  (Returned tt, tt).

(** A preflight request, and a request whose body is not JSON. *)
Definition preflight : Request RawBody :=
  {| method := "OPTIONS"; headers := ∅; ip := Some "10.0.0.7";
     remoteAddress := Some "10.0.0.7"; query := ∅; body := None |}.

Definition malformed : Request RawBody :=
  {| method := "POST"; headers := ∅; ip := Some "10.0.0.7";
     remoteAddress := Some "10.0.0.7"; query := ∅; body := Some (Rejected 400) |}.

Definition posted : Request RawBody :=
  {| method := "POST"; headers := ∅; ip := Some "10.0.0.7";
     remoteAddress := Some "10.0.0.7"; query := ∅;
     body := Some (Parsed (callTool "brave_web_search")) |}.

End Sample.

(** ** The server *)

Section Server.

(** The state of the collaborators outside the module. *)
Variable Ext : Type.
(** [ListToolsRequestSchema.safeParse(value).success] *)
Variable isListToolsRequest : option Body.t -> bool.
(** [createMcpServer()] and [mcpServer.connect(transport)] *)
Variable connect : Transport -> Ext -> Outcome unit * Ext.
(** [transport.handleRequest(req, res, req.body)] *)
Variable handleRequest :
  Transport -> Request Body.t -> Response -> Ext -> HandleResult * Ext.

(** The module-level state, the disk and the collaborators. *)
Record World := {
  analytics : Analytics;
  transports : gmap string Transport;
  created : nat;
  disk : Disk;
  ext : Ext;
  log : list Event;
}.

Definition withAnalytics (a : Analytics) (ev : Event) (w : World) : World :=
  {| analytics := a; transports := transports w; created := created w;
     disk := disk w; ext := ext w; log := log w ++ [ev] |}.

Definition withExt (e : Ext) (ev : Event) (w : World) : World :=
  {| analytics := analytics w; transports := transports w; created := created w;
     disk := disk w; ext := e; log := log w ++ [ev] |}.

(** Code that reads and writes the module state and may throw. *)
Definition M (A : Type) : Type := World -> Outcome A * World.

Definition ret {A} (a : A) : M A := fun w => (Returned a, w).

Definition bind {A B} (m : M A) (k : A -> M B) : M B :=
  fun w =>
    match m w with
    | (Returned a, w') => k a w'
    | (Thrown e, w') => (Thrown e, w')
    end.

#[local] Instance M_ret : MRet M := @ret.
#[local] Instance M_bind : MBind M := fun A B k m => bind m k.

(** [new StreamableHTTPServerTransport(options)] *)
Definition newTransport (gen : option SessionIdGenerator)
    (cb : option SessionCallback) : M Transport :=
  fun w =>
    let t := {| tid := created w; sessionIdGenerator := gen;
                onsessioninitialized := cb |} in
    (Returned t,
     {| analytics := analytics w; transports := transports w;
        created := S (created w); disk := disk w; ext := ext w;
        log := log w ++ [EvNewTransport (tid t)] |}).

(** [const mcpServer = createMcpServer(); await mcpServer.connect(transport)] *)
Definition connectServer (t : Transport) : M unit :=
  fun w =>
    let '(r, e) := connect t (ext w) in
    (r, withExt e (EvConnect (tid t)) w).

(** [sessionId && transports.has(sessionId)], then [transports.get(sessionId)] *)
Definition existingSession (sessionId : option string)
    (ts : gmap string Transport) : option Transport :=
  match sessionId with
  | Some s => if JS.truthy s then ts !! s else None
  | None => None
  end.

(** [!sessionId] *)
Definition noSessionId (sessionId : option string) : bool :=
  match sessionId with
  | Some s => negb (JS.truthy s)
  | None => true
  end.

Definition getTransport (request : Request Body.t) : M Transport :=
  fun w =>
    let sessionId := headers request !! "mcp-session-id" in
    match existingSession sessionId (transports w) with
    | Some transport => (Returned transport, w)
    | None =>
        if noSessionId sessionId && isListToolsRequest (body request) then
          (transport ← newTransport None None;
           _ ← connectServer transport;
           mret transport) w
        else
          (transport ← newTransport (Some RandomUUID) (Some SetInTransports);
           _ ← connectServer transport;
           mret transport) w
    end.

(** The callback a transport runs when it has initialized session [sid]. *)
Definition sessionInitialized (transport : Transport) (sid : string) (w : World)
    : World :=
  match onsessioninitialized transport with
  | Some SetInTransports =>
      {| analytics := analytics w;
         transports := <[sid := transport]> (transports w);
         created := created w; disk := disk w; ext := ext w; log := log w |}
  | None => w
  end.

(** [await transport.handleRequest(req, res, req.body)], with the callback
    it may run. *)
Definition invoke (transport : Transport) (req : Request Body.t) (res : Response)
    (w : World) : HandleResult * World :=
  let '(r, e) := handleRequest transport req res (ext w) in
  let w1 := withExt e (EvHandleRequest (tid transport)) w in
  (r, match hr_initialized r with
      | Some sid => sessionInitialized transport sid w1
      | None => w1
      end).

(** The [catch] of the [/mcp] handler. *)
Definition onDispatchError (res : Response) : Response :=
  if negb (headersSent res) then yieldGenericServerError res else res.

(** The first statements of the [/mcp] handler: [trackRequest(req, '/mcp')]
    and, for a tool invocation, [trackToolCall(req.body.params.name, req)];
    [now1] and [now2] are the clock as the two functions read it. *)
Definition recordArrival (now1 now2 : string) (req : Request Body.t) (w : World)
    : World :=
  let w1 := withAnalytics (trackRequest req "/mcp" now1 (analytics w))
              (EvTrackRequest "/mcp") w in
  match toolInvocation req with
  | Some toolName =>
      withAnalytics (trackToolCall toolName req now2 (analytics w1))
        (EvTrackToolCall toolName) w1
  | None => w1
  end.

(** The handler of [/mcp]: the tracking, then the [try] and its [catch].
    The route runs it after [extractApiKey], which only stores the key of
    the request and calls [next()]. *)
Definition mcpHandler (now1 now2 : string) (req : Request Body.t)
    (res : Response) (w : World) : Response * World :=
  let w2 := recordArrival now1 now2 req w in
  match getTransport req w2 with
  | (Thrown _, w3) => (onDispatchError res, w3)
  | (Returned transport, w3) =>
      let '(r, w4) := invoke transport req res w3 in
      match hr_outcome r with
      | Thrown _ => (onDispatchError (hr_res r), w4)
      | Returned _ => (hr_res r, w4)
      end
  end.

(** The response object as the [catch] of the [/mcp] handler finds it, when
    [getTransport] or [handleRequest] throws; [None] when neither does. *)
Definition caughtWith (now1 now2 : string) (req : Request Body.t)
    (res : Response) (w : World) : option Response :=
  match getTransport req (recordArrival now1 now2 req w) with
  | (Thrown _, _) => Some res
  | (Returned transport, w3) =>
      let r := (invoke transport req res w3).1 in
      match hr_outcome r with
      | Thrown _ => Some (hr_res r)
      | Returned _ => None
      end
  end.

(** [saveAnalytics()] on the world. *)
Definition save (write : WriteOutcome) (w : World) : World :=
  {| analytics := analytics w; transports := transports w; created := created w;
     disk := saveAnalytics write (analytics w) (disk w); ext := ext w;
     log := log w ++ [EvSaveAnalytics] |}.

(** The handler of [POST /analytics/import].  Reading [importData.summary]
    of an [undefined] body throws, which the [catch] reports. *)
Definition importHandler (ANALYTICS_IMPORT_KEY : option string)
    (write : WriteOutcome) (req : Request ImportData.t) (res : Response) (w : World)
    : Response * World :=
  let importKey := query req !! "key" in
  if importKeyRejected ANALYTICS_IMPORT_KEY importKey then
    (json (JS.JObj [("error", JS.JStr "Invalid import key")]) (status 403 res), w)
  else
    match body req with
    | None =>
        (json (JS.JObj [("error", JS.JStr "Failed to import analytics");
                        ("details", JS.JStr "TypeError: Cannot read properties of undefined (reading 'summary')")])
           (status 400 res), w)
    | Some importData =>
        let w1 :=
          {| analytics := mergeImport importData (analytics w);
             transports := transports w; created := created w;
             disk := disk w; ext := ext w; log := log w |} in
        let w2 := save write w1 in
        (json (JS.JObj [("message", JS.JStr "Analytics imported successfully");
                        ("currentStats",
                         JS.JObj [("totalRequests", JS.JNum (totalRequests (analytics w2)));
                                  ("totalToolCalls", JS.JNum (totalToolCalls (analytics w2)))])])
           res, w2)
    end.

(** A world with the given sessions and nothing on disk. *)
Definition worldWith (a : Analytics) (ts : gmap string Transport) (n : nat)
    (e : Ext) : World :=
  {| analytics := a; transports := ts; created := n; disk := None; ext := e;
     log := [] |}.

Definition emptyWorld (a : Analytics) (e : Ext) : World := worldWith a ∅ 0 e.

(** Every registered transport was created before now: its identity is
    below the number of transports created. *)
Definition registeredBeforeNow (w : World) : Prop :=
  forall sid transport,
    transports w !! sid = Some transport -> (tid transport < created w)%nat.

(** ** The life of the process *)

(** The module is loaded: the initial state at [now0], then
    [loadAnalytics()] at [now1]. *)
Definition moduleInit (now0 now1 : string) (d : Disk) : option Analytics :=
  loadAnalytics now1 d (initialAnalytics now0).

(** The module state with the timer of the periodic save and the exit code
    of the process once it has exited. *)
Record Process := {
  world : World;
  saveInterval : bool;
  exited : option Z;
}.

(** The callback of [setInterval]: [saveAnalytics()]. *)
Definition periodicSave (write : WriteOutcome) (p : Process) : Process :=
  {| world := save write (world p); saveInterval := saveInterval p;
     exited := exited p |}.

(** [gracefulShutdown(signal)]: [clearInterval], [saveAnalytics()],
    [process.exit(0)]. *)
Definition gracefulShutdown (write : WriteOutcome) (p : Process) : Process :=
  {| world := save write (world p); saveInterval := false; exited := Some 0 |}.

(** A run of requests to [/mcp], each with its two clock readings and its
    response object. *)
Definition serveAll (reqs : list (string * string * Request Body.t * Response))
    (w : World) : World :=
  foldl (fun acc r => (mcpHandler r.1.1.1 r.1.1.2 r.1.2 r.2 acc).2) w reqs.

(** ** The report handlers *)


(** The handler of [GET /analytics]; [parse] and [nowMs] are the clock of
    [getUptime]. *)
Definition analyticsHandler {B}
    (entries : gmap string Z -> list (string * Z))
    (localeCompare : string -> string -> Z)
    (parse : string -> option Z) (nowMs : Z) (now : string)
    (req : Request B) (res : Response) (w : World) : Response * World :=
  let w1 := withAnalytics (trackRequest req "/analytics" now (analytics w))
              (EvTrackRequest "/analytics") w in
  let a := analytics w1 in
  (json
     (JS.JObj [
        ("server", JS.JStr "Brave Search MCP Server");
        ("uptime", JS.JStr (getUptime parse nowMs a));
        ("serverStartTime", JS.JStr (serverStartTime a));
        ("summary",
         JS.JObj [("totalRequests", JS.JNum (totalRequests a));
                  ("totalToolCalls", JS.JNum (totalToolCalls a));
                  ("uniqueClients", JS.JNum (Z.of_nat (size (clientsByIp a))))]);
        ("breakdown",
         JS.JObj [("byMethod", countsToJSON (requestsByMethod a));
                  ("byEndpoint", countsToJSON (requestsByEndpoint a));
                  ("byTool", objectOf (toolsByUsage entries a))]);
        ("clients",
         JS.JObj [("byIp", countsToJSON (clientsByIp a));
                  ("byUserAgent", countsToJSON (clientsByUserAgent a))]);
        ("hourlyRequests", objectOf (last24Hours entries localeCompare a));
        ("recentToolCalls",
         JS.JArr (toolCallToJSON <$> take 20 (recentToolCalls a)))
     ])
     res, w1).

(** ** The route of [/mcp] *)

Definition setExt (e : Ext) (w : World) : World :=
  {| analytics := analytics w; transports := transports w; created := created w;
     disk := disk w; ext := e; log := log w |}.

(** [setApiKey] of the configuration module. *)
Variable setApiKey : QueryValue -> Ext -> Outcome unit * Ext.

(** What [createApp] puts on the way of a request to [/mcp]: [cors(...)],
    which answers every [OPTIONS] request itself with 204; [express.json()],
    whose error for a body it rejects is answered by the error handler of
    Express; [extractApiKey], whose call of [setApiKey] may throw, which the
    same error handler answers with 500; then the handler. *)
Definition mcpRoute (BRAVE_API_KEY : option string) (now1 now2 : string)
    (req : Request RawBody) (res : Response) (w : World) : Response * World :=
  if String.eqb (method req) "OPTIONS" then (endResponse (status 204 res), w)
  else
    match body req with
    | Some (Rejected code) => (endResponse (status code res), w)
    | _ =>
        let parsed := withBody req (parsedBody (body req)) in
        match extractApiKey parsed BRAVE_API_KEY with
        | None => mcpHandler now1 now2 parsed res w
        | Some apiKey =>
            match setApiKey apiKey (ext w) with
            | (Returned _, e) => mcpHandler now1 now2 parsed res (setExt e w)
            | (Thrown _, e) => (endResponse (status 500 res), setExt e w)
            end
        end
    end.

(** * Properties *)

(** ** The recent-call buffer *)

Lemma pop_take {A} (l : list A) : pop l = take (pred (List.length l)) l.
Proof. unfold pop. apply removelast_firstn_len. Qed.

(** One call on a buffer within the bound: what remains is the first
    [MAX_RECENT_CALLS] entries of the buffer with the new record in front. *)
Lemma trackToolCall_recent_take {B} (toolName : string) (req : Request B)
    (now : string) (a : Analytics) :
  (List.length (recentToolCalls a) <= MAX_RECENT_CALLS)%nat ->
  recentToolCalls (trackToolCall toolName req now a)
  = take MAX_RECENT_CALLS (toolCallOf toolName req now :: recentToolCalls a).
Proof.
  intros Hlen. unfold trackToolCall; cbn [recentToolCalls].
  set (l := toolCallOf toolName req now :: recentToolCalls a).
  assert (Hl : List.length l = S (List.length (recentToolCalls a))) by reflexivity.
  destruct (Nat.ltb_spec MAX_RECENT_CALLS (List.length l)) as [Hgt | Hle].
  - rewrite pop_take. f_equal. lia.
  - symmetry. apply firstn_all2. exact Hle.
Qed.

Lemma trackToolCall_recent_length {B} (toolName : string) (req : Request B)
    (now : string) (a : Analytics) :
  (List.length (recentToolCalls a) <= MAX_RECENT_CALLS)%nat ->
  (List.length (recentToolCalls (trackToolCall toolName req now a))
   <= MAX_RECENT_CALLS)%nat.
Proof.
  intros Hlen. rewrite trackToolCall_recent_take by exact Hlen.
  rewrite length_take. lia.
Qed.

(** A run of calls: the records of the run, newest first, in front of the
    old buffer, cut to the bound. *)
Lemma trackToolCalls_recent {B} (calls : list (string * Request B * string))
    (a : Analytics) :
  (List.length (recentToolCalls a) <= MAX_RECENT_CALLS)%nat ->
  recentToolCalls (trackToolCalls calls a)
  = take MAX_RECENT_CALLS
      (reverse ((fun c => toolCallOf c.1.1 c.1.2 c.2) <$> calls)
       ++ recentToolCalls a).
Proof.
  revert a. induction calls as [| c calls IH]; intros a Hlen.
  - cbn. symmetry. apply firstn_all2. exact Hlen.
  - cbn [trackToolCalls foldl]. fold (trackToolCalls calls).
    change (foldl _ ?x calls) with (trackToolCalls calls x).
    rewrite IH by (apply trackToolCall_recent_length; exact Hlen).
    rewrite trackToolCall_recent_take by exact Hlen.
    rewrite fmap_cons, reverse_cons, <- app_assoc. cbn [app].
    set (old := recentToolCalls a) in *.
    set (r := toolCallOf c.1.1 c.1.2 c.2).
    set (front := reverse _).
    destruct (Nat.le_gt_cases MAX_RECENT_CALLS (List.length front)) as [Hf | Hf].
    + rewrite !take_app_le by exact Hf. reflexivity.
    + rewrite !take_app_ge by lia. f_equal.
      rewrite take_take. f_equal. lia.
Qed.

(** The new record is at the head whatever the length of the buffer. *)
Lemma trackToolCall_recent_head {B} (toolName : string) (req : Request B)
    (now : string) (a : Analytics) :
  head (recentToolCalls (trackToolCall toolName req now a))
  = Some (toolCallOf toolName req now).
Proof.
  unfold trackToolCall; cbn [recentToolCalls].
  destruct (recentToolCalls a) as [| r rest]; [reflexivity |].
  case (_ <? _)%nat; reflexivity.
Qed.

(** C1: on a buffer of at most 100 entries, [trackToolCall] puts the new
    record at the head and keeps at most 100 entries, newest first; on a
    full buffer (from the 101st call on) the last, oldest entry is dropped
    and the other 99 follow the new record in their order. *)
Theorem trackToolCall_bounded_newest_first {B} (toolName : string)
    (req : Request B) (now : string) (a : Analytics) :
  (List.length (recentToolCalls a) <= 100)%nat ->
  let record := {| tool := toolName; timestamp := now;
                   clientIp := clientIpOf req; userAgent := userAgentOf req |} in
  let a' := trackToolCall toolName req now a in
  head (recentToolCalls a') = Some record
  /\ (List.length (recentToolCalls a') <= 100)%nat
  /\ recentToolCalls a' = take 100 (record :: recentToolCalls a)
  /\ ((List.length (recentToolCalls a) < 100)%nat ->
      recentToolCalls a' = record :: recentToolCalls a)
  /\ ((List.length (recentToolCalls a) = 100)%nat ->
      exists kept oldest,
        recentToolCalls a = (kept ++ [oldest])%list
        /\ recentToolCalls a' = record :: kept).
Proof.
  intros Hlen record a'.
  assert (Htake : recentToolCalls a' = take 100 (record :: recentToolCalls a))
    by (apply trackToolCall_recent_take; exact Hlen).
  split; [apply trackToolCall_recent_head |].
  split; [apply trackToolCall_recent_length; exact Hlen |].
  split; [exact Htake |].
  split.
  - intros Hlt. rewrite Htake. apply firstn_all2. cbn [List.length]. lia.
  - intros Hfull.
    destruct (exists_last (l := recentToolCalls a)) as (kept & oldest & Hold).
    { intros Hnil. rewrite Hnil in Hfull. discriminate Hfull. }
    exists kept, oldest. split; [exact Hold |].
    rewrite Htake, Hold. cbn [take firstn]. f_equal.
    rewrite Hold, length_app in Hfull. cbn in Hfull.
    rewrite take_app_le by lia. apply firstn_all2. lia.
Qed.

(** ** The keys a request is counted under *)

Lemma substring_to_length (n : nat) (s : string) :
  (String.length (JS.substring_to n s) <= n)%nat.
Proof.
  unfold JS.substring_to. revert s.
  induction n as [| n IH]; intros [| c s]; cbn; try lia.
  specialize (IH s). lia.
Qed.

Lemma substring_to_truthy (n : nat) (s : string) :
  JS.truthy s = true -> JS.truthy (JS.substring_to (S n) s) = true.
Proof. destruct s; [discriminate | reflexivity]. Qed.

Lemma or_default_truthy (o : option string) (d : string) :
  JS.truthy d = true -> JS.truthy (JS.or_default o d) = true.
Proof.
  intros Hd. unfold JS.or_default.
  destruct o as [s |]; [| exact Hd].
  destruct (JS.truthy s) eqn:Hs; [exact Hs | exact Hd].
Qed.

Lemma truthy_nonempty (s : string) : JS.truthy s = true -> s <> "".
Proof. destruct s; [discriminate | discriminate]. Qed.

Lemma userAgentOf_truthy {B} (req : Request B) : JS.truthy (userAgentOf req) = true.
Proof.
  unfold userAgentOf. apply substring_to_truthy, or_default_truthy. reflexivity.
Qed.

Lemma clientIpOf_truthy {B} (req : Request B) : JS.truthy (clientIpOf req) = true.
Proof. unfold clientIpOf. apply or_default_truthy. reflexivity. Qed.

Lemma add_count_dom (k : string) (n : Z) (m : gmap string Z) :
  dom (add_count k n m) = {[k]} ∪ dom m.
Proof. unfold add_count. apply dom_insert_L. Qed.

Lemma add_count_lookup (k : string) (n : Z) (m : gmap string Z) :
  add_count k n m !! k = Some (JS.or_zero (m !! k) + n).
Proof. unfold add_count. apply lookup_insert_eq. Qed.

Lemma substring_to_prefix (n : nat) (s : string) :
  exists rest, s = JS.substring_to n s +:+ rest.
Proof.
  unfold JS.substring_to. revert s.
  induction n as [| n IH]; intros [| c s]; cbn.
  - exists "". reflexivity.
  - exists (String c s). reflexivity.
  - exists "". reflexivity.
  - destruct (IH s) as [rest Hrest]. exists rest.
    change (String c (String.substring 0 n s) +:+ rest)
      with (String c (String.substring 0 n s +:+ rest)).
    rewrite <- Hrest. reflexivity.
Qed.

Lemma substring_to_length_min (n : nat) (s : string) :
  String.length (JS.substring_to n s) = Nat.min n (String.length s).
Proof.
  unfold JS.substring_to. revert s.
  induction n as [| n IH]; intros [| c s]; cbn; try reflexivity.
  rewrite IH. reflexivity.
Qed.

Lemma inherited_unknown : inherited "unknown" = false.
Proof. vm_compute. reflexivity. Qed.

Lemma add_count_lookup_ne (k k' : string) (n : Z) (m : gmap string Z) :
  k' <> k -> add_count k n m !! k' = m !! k'.
Proof. intros Hne. unfold add_count. apply lookup_insert_ne. congruence. Qed.

(** On a name that is not inherited, [add_count] is the update of the
    plain object. *)
Lemma updateCount_ordinary (k : string) (n : Z) (m : gmap string Z) :
  inherited k = false -> updateCount k n m = Counts (add_count k n m).
Proof.
  intros Hk. unfold updateCount, add_count.
  destruct (m !! k) as [v |]; [reflexivity |].
  rewrite Hk. destruct (String.eqb_spec k "__proto__") as [-> | _];
    [discriminate Hk | reflexivity].
Qed.

(** C10: the user agent a request or a tool call is stored under is the
    header cut to its first 50 characters, so it has at most 50 characters,
    and 'unknown' without a header; it is never empty, the address is never
    empty and 'unknown' when nothing gives one.  A request without user
    agent or address is counted under 'unknown'; under any other key that
    is not an inherited name the request is counted too, no other key
    changes, and the record [trackToolCall] puts at the head carries both
    strings. *)
Theorem tracked_client_keys {B} (req : Request B) (endpoint toolName now : string)
    (a : Analytics) :
  let ua := userAgentOf req in
  let addr := clientIpOf req in
  let a1 := trackRequest req endpoint now a in
  let a2 := trackToolCall toolName req now a in
  ((String.length ua <= 50)%nat /\ ua <> "" /\ addr <> "")
  /\ (forall header,
        headers req !! "user-agent" = Some header -> header <> "" ->
        String.length ua = Nat.min 50 (String.length header)
        /\ exists rest, header = ua +:+ rest)
  /\ (JS.falsy (headers req !! "user-agent") ->
      ua = "unknown"
      /\ clientsByUserAgent a1 !! "unknown"
         = Some (JS.or_zero (clientsByUserAgent a !! "unknown") + 1))
  /\ (JS.falsy (forwardedFor req) -> JS.falsy (ip req) ->
      JS.falsy (remoteAddress req) ->
      addr = "unknown"
      /\ clientsByIp a1 !! "unknown"
         = Some (JS.or_zero (clientsByIp a !! "unknown") + 1))
  /\ (inherited ua = false ->
      updateCount ua 1 (clientsByUserAgent a) = Counts (clientsByUserAgent a1)
      /\ clientsByUserAgent a1 !! ua
         = Some (JS.or_zero (clientsByUserAgent a !! ua) + 1))
  /\ (inherited addr = false ->
      updateCount addr 1 (clientsByIp a) = Counts (clientsByIp a1)
      /\ clientsByIp a1 !! addr = Some (JS.or_zero (clientsByIp a !! addr) + 1))
  /\ (forall k, k <> ua -> clientsByUserAgent a1 !! k = clientsByUserAgent a !! k)
  /\ (forall k, k <> addr -> clientsByIp a1 !! k = clientsByIp a !! k)
  /\ (userAgent <$> head (recentToolCalls a2) = Some ua
      /\ clientIp <$> head (recentToolCalls a2) = Some addr).
Proof.
  intros ua addr a1 a2.
  split.
  { split; [apply substring_to_length |].
    split; apply truthy_nonempty;
      [apply userAgentOf_truthy | apply clientIpOf_truthy]. }
  split.
  { intros header Hheader Hne.
    assert (Hua : ua = JS.substring_to 50 header).
    { subst ua. unfold userAgentOf. rewrite Hheader.
      destruct header; [congruence | reflexivity]. }
    rewrite Hua. split; [apply substring_to_length_min | apply substring_to_prefix]. }
  split.
  { intros Hfalsy.
    assert (Hua : ua = "unknown").
    { subst ua. unfold userAgentOf. destruct Hfalsy as [-> | ->]; reflexivity. }
    split; [exact Hua |].
    subst a1. cbn [trackRequest clientsByUserAgent]. fold ua. rewrite Hua.
    apply add_count_lookup. }
  split.
  { intros H1 H2 H3.
    assert (Haddr : addr = "unknown").
    { subst addr. unfold clientIpOf.
      destruct H1 as [-> | ->], H2 as [-> | ->], H3 as [-> | ->]; reflexivity. }
    split; [exact Haddr |].
    subst a1. cbn [trackRequest clientsByIp]. fold addr. rewrite Haddr.
    apply add_count_lookup. }
  split.
  { intros Hord. split; [apply updateCount_ordinary, Hord | apply add_count_lookup]. }
  split.
  { intros Hord. split; [apply updateCount_ordinary, Hord | apply add_count_lookup]. }
  split; [intros k Hk; apply add_count_lookup_ne, Hk |].
  split; [intros k Hk; apply add_count_lookup_ne, Hk |].
  subst a2. rewrite trackToolCall_recent_head. split; reflexivity.
Qed.

(** ** Importing a backup *)

Lemma supplied_absent (entries : list (string * Z)) (k : string) :
  k ∉ entries.*1 -> supplied (Some entries) k = 0.
Proof.
  induction entries as [| [k' c] rest IH]; intros Hk; [reflexivity |].
  cbn in Hk |- *. apply not_elem_of_cons in Hk as [Hne Hrest].
  destruct (String.eqb_spec k' k) as [-> | _]; [congruence |].
  apply IH, Hrest.
Qed.

(** A merged section, key by key: a key it lists holds the old count (or 0)
    plus what the section supplies, any other key is as before. *)
Lemma mergeCounts_lookup (entries : list (string * Z)) (m : gmap string Z)
    (k : string) :
  mergeCounts (Some entries) m !! k
  = if decide (k ∈ entries.*1)
    then Some (JS.or_zero (m !! k) + supplied (Some entries) k)
    else m !! k.
Proof.
  revert m. induction entries as [| [k' c] rest IH]; intros m.
  - cbn. rewrite decide_False by apply not_elem_of_nil. reflexivity.
  - cbn [mergeCounts foldl fst snd] in IH |- *. rewrite IH. clear IH.
    cbn [fmap list_fmap fst supplied foldr snd].
    unfold add_count.
    destruct (String.eqb_spec k' k) as [-> | Hne].
    + rewrite lookup_insert_eq. cbn [JS.or_zero].
      rewrite (decide_True (P := k ∈ k :: _)) by (apply elem_of_cons; left; reflexivity).
      destruct (decide (k ∈ rest.*1)) as [Hin | Hout].
      * f_equal. cbn [supplied]. lia.
      * f_equal. pose proof (supplied_absent rest k Hout) as H0.
        cbn [supplied] in H0. lia.
    + rewrite lookup_insert_ne by exact Hne.
      destruct (decide (k ∈ rest.*1)) as [Hin | Hout].
      * rewrite decide_True by (apply elem_of_cons; right; exact Hin). reflexivity.
      * rewrite decide_False; [reflexivity |].
        intros Hin. apply elem_of_cons in Hin as [-> | Hin]; congruence.
Qed.

(** In the reading of the code, [m[k] || 0]: the count after the merge is
    the count before plus what the section supplies. *)
Lemma mergeCounts_or_zero (section : option (list (string * Z)))
    (m : gmap string Z) (k : string) :
  JS.or_zero (mergeCounts section m !! k)
  = JS.or_zero (m !! k) + supplied section k.
Proof.
  destruct section as [entries |]; [| cbn; lia].
  rewrite mergeCounts_lookup.
  destruct (decide (k ∈ entries.*1)) as [Hin | Hout]; [reflexivity |].
  rewrite (supplied_absent entries k Hout). lia.
Qed.

Lemma importHandler_accepted (secret : option string) (write : WriteOutcome)
    (req : Request ImportData.t) (res : Response) (w : World)
    (importData : ImportData.t) :
  importKeyRejected secret (query req !! "key") = false ->
  body req = Some importData ->
  analytics (importHandler secret write req res w).2
  = mergeImport importData (analytics w).
Proof. intros Hkey Hbody. unfold importHandler. rewrite Hkey, Hbody. reflexivity. Qed.

Lemma updateCounts_ordinary (entries : list (string * Z)) (m : gmap string Z) :
  ordinarySection (Some entries) ->
  updateCounts entries m = Counts (mergeCounts (Some entries) m).
Proof.
  cbn [ordinarySection]. intros Hord. revert m.
  induction Hord as [| kv rest Hkv _ IH]; intros m; [reflexivity |].
  cbn [updateCounts]. rewrite (updateCount_ordinary _ _ _ Hkv). apply IH.
Qed.

(** C7: an import under a key that every object inherits is not added.
    With [toolCalls["search"]] at 3, the section [byTool] of
    [{"constructor": 5, "search": 5}] leaves text in the property
    [constructor], and the section [{"__proto__": 5}] leaves the record as
    it was. *)
Theorem import_inherited_key_not_added :
  updateCounts [("constructor", 5); ("search", 5)] {["search" := 3]}
  = HoldsText "constructor"
  /\ updateCounts [("__proto__", 5)] {["search" := 3]}
     = Counts {["search" := 3]}.
Proof. vm_compute. split; reflexivity. Qed.

(** X21: an accepted import whose sections have no inherited name among
    their keys adds the supplied totals to [totalRequests] and
    [totalToolCalls] (nothing for a missing summary or total), adds to every
    key of [requestsByMethod], [requestsByEndpoint] and [toolCalls] what the
    matching section supplies for it (nothing for a missing section), and
    leaves [recentToolCalls] and the other fields as they were. *)
Theorem import_adds_counts_keeps_history (secret : option string)
    (write : WriteOutcome) (req : Request ImportData.t) (res : Response)
    (w : World) (importData : ImportData.t) :
  importKeyRejected secret (query req !! "key") = false ->
  body req = Some importData ->
  ordinaryImport importData ->
  let a := analytics w in
  let a' := analytics (importHandler secret write req res w).2 in
  let summary := ImportData.summary importData in
  let breakdown := ImportData.breakdown importData in
  totalRequests a'
    = totalRequests a + JS.or_zero (summary ≫= ImportData.totalRequests)
  /\ totalToolCalls a'
    = totalToolCalls a + JS.or_zero (summary ≫= ImportData.totalToolCalls)
  /\ (forall k, JS.or_zero (requestsByMethod a' !! k)
        = JS.or_zero (requestsByMethod a !! k)
          + supplied (breakdown ≫= ImportData.byMethod) k)
  /\ (forall k, JS.or_zero (requestsByEndpoint a' !! k)
        = JS.or_zero (requestsByEndpoint a !! k)
          + supplied (breakdown ≫= ImportData.byEndpoint) k)
  /\ (forall k, JS.or_zero (toolCalls a' !! k)
        = JS.or_zero (toolCalls a !! k)
          + supplied (breakdown ≫= ImportData.byTool) k)
  /\ recentToolCalls a' = recentToolCalls a
  /\ (serverStartTime a' = serverStartTime a
      /\ clientsByIp a' = clientsByIp a
      /\ clientsByUserAgent a' = clientsByUserAgent a
      /\ hourlyRequests a' = hourlyRequests a).
Proof.
  intros Hkey Hbody _ a a' summary breakdown. subst a'.
  rewrite (importHandler_accepted _ _ _ _ _ _ Hkey Hbody).
  unfold mergeImport; cbn [totalRequests totalToolCalls requestsByMethod
    requestsByEndpoint toolCalls recentToolCalls serverStartTime clientsByIp
    clientsByUserAgent hourlyRequests].
  subst a summary breakdown.
  split; [destruct (ImportData.summary importData); cbn; lia |].
  split; [destruct (ImportData.summary importData); cbn; lia |].
  split; [intros k; apply mergeCounts_or_zero |].
  split; [intros k; apply mergeCounts_or_zero |].
  split; [intros k; apply mergeCounts_or_zero |].
  repeat split.
Qed.

(** C6: with a non-empty import secret configured and a [key] parameter
    that is absent or differs from it, the import handler answers 403 with
    'Invalid import key' and changes nothing: the analytics, the disk and
    the order of effects are those it found (nothing is saved). *)
Theorem import_rejected_changes_nothing (secret : string) (write : WriteOutcome)
    (req : Request ImportData.t) (res : Response) (w : World) :
  secret <> "" ->
  query req !! "key" <> Some (QString secret) ->
  let result := importHandler (Some secret) write req res w in
  result.2 = w
  /\ sent result.1
     = (sent res ++ [(403, JS.JObj [("error", JS.JStr "Invalid import key")])])%list
  /\ headersSent result.1 = true.
Proof.
  intros Hsecret Hkey result. subst result. unfold importHandler.
  assert (Hrej : importKeyRejected (Some secret) (query req !! "key") = true).
  { unfold importKeyRejected.
    destruct secret as [| c s]; [congruence |]. cbn [JS.truthy andb].
    destruct (query req !! "key") as [[k | l | o] |]; try reflexivity.
    destruct (String.eqb_spec k (String c s)) as [-> | Hne]; [congruence |].
    reflexivity. }
  rewrite Hrej. cbn. repeat split.
Qed.

(** ** Persisting and reloading *)

Lemma asCounts_countsToJSON (m : gmap string Z) :
  asCounts (countsToJSON m) = Some m.
Proof.
  unfold asCounts, countsToJSON.
  rewrite mapM_fmap_Some by (intros [k v]; reflexivity).
  cbn. f_equal. apply list_to_map_to_list.
Qed.

Lemma asToolCall_toolCallToJSON (c : ToolCall) :
  asToolCall (toolCallToJSON c) = Some c.
Proof. destruct c. reflexivity. Qed.

Lemma asToolCalls_toJSON (l : list ToolCall) :
  asToolCalls (JS.JArr (toolCallToJSON <$> l)) = Some l.
Proof.
  unfold asToolCalls. apply mapM_fmap_Some, asToolCall_toolCallToJSON.
Qed.

(** What the spread makes of a saved document: the saved state, with the
    start time of the document unless it is empty. *)
Lemma spreadLoaded_analyticsToJSON (a : Analytics) (now : string) :
  spreadLoaded (analyticsToJSON a) now
  = Some {|
      serverStartTime := if JS.truthy (serverStartTime a)
                         then serverStartTime a else now;
      totalRequests := totalRequests a;
      totalToolCalls := totalToolCalls a;
      requestsByMethod := requestsByMethod a;
      requestsByEndpoint := requestsByEndpoint a;
      toolCalls := toolCalls a;
      recentToolCalls := recentToolCalls a;
      clientsByIp := clientsByIp a;
      clientsByUserAgent := clientsByUserAgent a;
      hourlyRequests := hourlyRequests a;
    |}.
Proof.
  unfold spreadLoaded, startTimeOr, analyticsToJSON.
  cbn [JS.prop JS.assoc String.eqb Ascii.eqb Bool.eqb].
  cbn [mbind option_bind asNumber asString JS.or_default].
  rewrite !asCounts_countsToJSON, asToolCalls_toJSON.
  reflexivity.
Qed.

(** C8: a state whose start time is set (as it is from module load on),
    saved and then loaded at any later time over any state, is the state
    that was saved, start time included. *)
Theorem save_then_load_restores (a : Analytics) (disk : Disk)
    (now : string) (current : Analytics) :
  serverStartTime a <> "" ->
  loadAnalytics now (saveAnalytics WriteOk a disk) current = Some a.
Proof.
  intros Hstart. unfold saveAnalytics, loadAnalytics.
  change (spreadLoaded (analyticsToJSON a) now = Some a).
  rewrite spreadLoaded_analyticsToJSON.
  destruct a as [start ? ? ? ? ? ? ? ? ?]; cbn in Hstart |- *.
  destruct start; [congruence | reflexivity].
Qed.



(** ** Resolving a transport *)

Lemma existingSession_known (sid : string) (ts : gmap string Transport) :
  sid <> "" -> existingSession (Some sid) ts = ts !! sid.
Proof. intros Hsid. destruct sid; [congruence | reflexivity]. Qed.

Lemma noSessionId_set (sid : string) : sid <> "" -> noSessionId (Some sid) = false.
Proof. intros Hsid. destruct sid; [congruence | reflexivity]. Qed.

(** The two creating branches of [getTransport]: one object is constructed
    and connected, the session map is not touched. *)
Lemma create_and_connect (gen : option SessionIdGenerator)
    (cb : option SessionCallback) (w : World) :
  let transport := {| tid := created w; sessionIdGenerator := gen;
                      onsessioninitialized := cb |} in
  let result := (transport ← newTransport gen cb;
                 _ ← connectServer transport;
                 mret transport) w in
  result.1 = match (connect transport (ext w)).1 with
             | Returned _ => Returned transport
             | Thrown e => Thrown e
             end
  /\ transports result.2 = transports w
  /\ created result.2 = S (created w)
  /\ analytics result.2 = analytics w
  /\ log result.2
     = (log w ++ [EvNewTransport (created w); EvConnect (created w)])%list.
Proof.
  cbn. unfold mbind, M_bind, bind, newTransport, connectServer, mret, M_ret, ret.
  cbn. destruct (connect _ (ext w)) as [[[] | e] e']; cbn;
    rewrite <- app_assoc; repeat split.
Qed.

Lemma create_and_connect_ext (gen : option SessionIdGenerator)
    (cb : option SessionCallback) (w : World) :
  ext ((transport ← newTransport gen cb;
        _ ← connectServer transport;
        mret transport) w).2
  = (connect {| tid := created w; sessionIdGenerator := gen;
                onsessioninitialized := cb |} (ext w)).2.
Proof.
  unfold mbind, M_bind, bind, newTransport, connectServer, mret, M_ret, ret.
  cbn. destruct (connect _ (ext w)) as [[[] | e] e']; reflexivity.
Qed.

(** C3: with a registered session id in the header, [getTransport] returns
    the transport registered under it and changes nothing, so no transport
    is created and the map is as before; a second resolution does the same. *)
Theorem getTransport_known_session (request : Request Body.t) (w : World)
    (sid : string) (transport : Transport) :
  sid <> "" ->
  headers request !! "mcp-session-id" = Some sid ->
  transports w !! sid = Some transport ->
  getTransport request w = (Returned transport, w)
  /\ transports (getTransport request w).2 = transports w
  /\ created (getTransport request w).2 = created w
  /\ getTransport request (getTransport request w).2 = (Returned transport, w).
Proof.
  intros Hsid Hheader Hknown.
  assert (Hget : getTransport request w = (Returned transport, w)).
  { unfold getTransport. rewrite Hheader, existingSession_known by exact Hsid.
    rewrite Hknown. reflexivity. }
  rewrite !Hget. cbn [snd]. rewrite Hget. repeat split.
Qed.

(** A transport without the callback registers nothing. *)
Lemma sessionInitialized_no_callback (transport : Transport) (sid : string)
    (w : World) :
  onsessioninitialized transport = None ->
  sessionInitialized transport sid w = w.
Proof. intros Hcb. unfold sessionInitialized. rewrite Hcb. reflexivity. Qed.

Lemma recordArrival_transports (now1 now2 : string) (req : Request Body.t)
    (w : World) :
  transports (recordArrival now1 now2 req w) = transports w
  /\ created (recordArrival now1 now2 req w) = created w
  /\ ext (recordArrival now1 now2 req w) = ext w.
Proof. unfold recordArrival. destruct (toolInvocation req); repeat split. Qed.

(** C4: without a session header and with a body of the list-tools shape,
    [getTransport] constructs one transport with no session id generator
    and no registration callback and returns it (when connecting it does
    not throw); the session map and its size are unchanged, and remain so
    through the whole handling of the request. *)
Theorem getTransport_discovery_unregistered (request : Request Body.t)
    (w : World) :
  headers request !! "mcp-session-id" = None ->
  isListToolsRequest (body request) = true ->
  let transport := {| tid := created w; sessionIdGenerator := None;
                      onsessioninitialized := None |} in
  let result := getTransport request w in
  result.1 = match (connect transport (ext w)).1 with
             | Returned _ => Returned transport
             | Thrown e => Thrown e
             end
  /\ (transports result.2 = transports w
      /\ size (transports result.2) = size (transports w))
  /\ created result.2 = S (created w)
  /\ (forall sid w', sessionInitialized transport sid w' = w')
  /\ (forall now1 now2 res,
        transports (mcpHandler now1 now2 request res w).2 = transports w).
Proof.
  intros Hheader Hshape transport result.
  assert (Hbranch : forall w0, getTransport request w0
            = (t ← newTransport None None;
               _ ← connectServer t;
               mret t) w0).
  { intros w0. unfold getTransport. rewrite Hheader, Hshape. reflexivity. }
  subst result. rewrite Hbranch.
  destruct (create_and_connect None None w) as (Hres & Hts & Hcr & _ & _).
  split; [exact Hres |].
  split; [split; [exact Hts | rewrite Hts; reflexivity] |].
  split; [exact Hcr |].
  split; [intros sid w'; apply sessionInitialized_no_callback; reflexivity |].
  intros now1 now2 res. unfold mcpHandler.
  destruct (recordArrival_transports now1 now2 request w) as (Hrt & _ & _).
  set (w2 := recordArrival now1 now2 request w) in *.
  rewrite Hbranch.
  destruct (create_and_connect None None w2) as (Hres2 & Hts2 & _ & _ & _).
  destruct ((t ← newTransport None None; _ ← connectServer t; mret t) w2)
    as [[t | e] w3]; cbn [fst snd] in *; [| congruence].
  assert (Ht : onsessioninitialized t = None).
  { destruct (connect _ (ext w2)).1; [| discriminate Hres2].
    injection Hres2 as ->. reflexivity. }
  unfold invoke. destruct (handleRequest t request res (ext w3)) as [r e'].
  assert (Hinv : transports
            (match hr_initialized r with
             | Some sid => sessionInitialized t sid
                             (withExt e' (EvHandleRequest (tid t)) w3)
             | None => withExt e' (EvHandleRequest (tid t)) w3
             end) = transports w).
  { destruct (hr_initialized r);
      [rewrite sessionInitialized_no_callback by exact Ht |];
      cbn [withExt transports]; congruence. }
  destruct (hr_outcome r); cbn [snd]; exact Hinv.
Qed.

(** C5, as the code has it: with a non-empty session header that is not a
    key of the map, [getTransport] reports no error of its own and takes
    the new-session branch whatever the body: it constructs one transport
    with the [randomUUID] generator and the callback that registers the
    generated id with this transport when the session is initialized; the
    map itself is unchanged when [getTransport] returns, and nothing
    depends on the value of the header. *)
Theorem getTransport_unknown_session (request : Request Body.t) (w : World)
    (sid : string) :
  sid <> "" ->
  headers request !! "mcp-session-id" = Some sid ->
  transports w !! sid = None ->
  let transport := {| tid := created w;
                      sessionIdGenerator := Some RandomUUID;
                      onsessioninitialized := Some SetInTransports |} in
  let result := getTransport request w in
  result.1 = match (connect transport (ext w)).1 with
             | Returned _ => Returned transport
             | Thrown e => Thrown e
             end
  /\ transports result.2 = transports w
  /\ created result.2 = S (created w)
  /\ (forall generated w',
        transports (sessionInitialized transport generated w')
        = <[generated := transport]> (transports w')).
Proof.
  intros Hsid Hheader Hunknown transport result. subst result.
  unfold getTransport.
  rewrite Hheader, existingSession_known, Hunknown, noSessionId_set by exact Hsid.
  cbn [andb].
  destruct (create_and_connect (Some RandomUUID) (Some SetInTransports) w)
    as (Hres & Hts & Hcr & _ & _).
  split; [exact Hres |]. split; [exact Hts |]. split; [exact Hcr |].
  intros generated w'. reflexivity.
Qed.

(** ** Dispatching *)

Lemma app_singleton_neq {A} (l : list A) (x : A) : l <> (l ++ [x])%list.
Proof.
  intros Heq. apply (f_equal (@List.length A)) in Heq.
  rewrite length_app in Heq. cbn in Heq. lia.
Qed.

(** The [catch]: the envelope goes out when nothing was sent, and only then. *)
Lemma onDispatchError_spec (res : Response) :
  (headersSent res = false
   <-> sent (onDispatchError res) = (sent res ++ [(500, genericServerError)])%list)
  /\ (headersSent res = false ->
      headersSent (onDispatchError res) = true
      /\ statusCode (onDispatchError res) = 500)
  /\ (headersSent res = true -> onDispatchError res = res).
Proof.
  unfold onDispatchError. destruct (headersSent res) eqn:Hsent; cbn.
  - split; [split; [discriminate |] |].
    + intros Heq. exfalso. exact (app_singleton_neq _ _ Heq).
    + split; [discriminate | reflexivity].
  - split; [split; reflexivity |]. split; [split; reflexivity | discriminate].
Qed.

Lemma mcpHandler_caught (now1 now2 : string) (req : Request Body.t)
    (res : Response) (w : World) (caught : Response) :
  caughtWith now1 now2 req res w = Some caught ->
  (mcpHandler now1 now2 req res w).1 = onDispatchError caught.
Proof.
  unfold caughtWith, mcpHandler.
  destruct (getTransport req (recordArrival now1 now2 req w)) as [[t | e] w3].
  - destruct (invoke t req res w3) as [r w4]. cbn [fst].
    destruct (hr_outcome r); [discriminate |]. intros [= <-]. reflexivity.
  - intros [= <-]. reflexivity.
Qed.

(** C2: when [getTransport] or [handleRequest] throws, the response the
    handler leaves is the one the [catch] found with the fixed envelope
    (status 500, id null, code -32603, 'Internal server error') sent after
    it exactly when no headers had been sent; when headers had been sent,
    the response is left as found, with no second send. *)
Theorem dispatch_failure_envelope (now1 now2 : string) (req : Request Body.t)
    (res : Response) (w : World) (caught : Response) :
  caughtWith now1 now2 req res w = Some caught ->
  let final := (mcpHandler now1 now2 req res w).1 in
  let envelope :=
    JS.JObj [("id", JS.JNull);
             ("jsonrpc", JS.JStr "2.0");
             ("error", JS.JObj [("code", JS.JNum (-32603));
                                ("message", JS.JStr "Internal server error")])] in
  (headersSent caught = false
   <-> sent final = (sent caught ++ [(500, envelope)])%list)
  /\ (headersSent caught = true -> final = caught).
Proof.
  intros Hcaught final envelope. subst final.
  rewrite (mcpHandler_caught _ _ _ _ _ _ Hcaught).
  destruct (onDispatchError_spec caught) as (Hiff & _ & Hkeep).
  split; [exact Hiff | exact Hkeep].
Qed.

(** When resolving throws, the [catch] finds the response as the handler
    received it. *)
Lemma caughtWith_resolution (now1 now2 : string) (req : Request Body.t)
    (res : Response) (w : World) (e : string) (w3 : World) :
  getTransport req (recordArrival now1 now2 req w) = (Thrown e, w3) ->
  caughtWith now1 now2 req res w = Some res.
Proof. intros Hget. unfold caughtWith. rewrite Hget. reflexivity. Qed.

(** When the transport throws, the [catch] finds the response as the
    transport left it. *)
Lemma caughtWith_invocation (now1 now2 : string) (req : Request Body.t)
    (res : Response) (w : World) (transport : Transport) (w3 : World)
    (e : string) :
  getTransport req (recordArrival now1 now2 req w) = (Returned transport, w3) ->
  hr_outcome (invoke transport req res w3).1 = Thrown e ->
  caughtWith now1 now2 req res w = Some (hr_res (invoke transport req res w3).1).
Proof. intros Hget Hthrown. unfold caughtWith. rewrite Hget, Hthrown. reflexivity. Qed.

(** These are the only two ways into the [catch]. *)
Lemma caughtWith_inv (now1 now2 : string) (req : Request Body.t)
    (res : Response) (w : World) (caught : Response) :
  caughtWith now1 now2 req res w = Some caught ->
  (exists e w3,
     getTransport req (recordArrival now1 now2 req w) = (Thrown e, w3)
     /\ caught = res)
  \/ (exists transport w3 e,
        getTransport req (recordArrival now1 now2 req w) = (Returned transport, w3)
        /\ hr_outcome (invoke transport req res w3).1 = Thrown e
        /\ caught = hr_res (invoke transport req res w3).1).
Proof.
  unfold caughtWith.
  destruct (getTransport req (recordArrival now1 now2 req w)) as [[t | e] w3].
  - destruct (hr_outcome (invoke t req res w3).1) as [| e] eqn:Hout; [discriminate |].
    intros [= <-]. right. exists t, w3, e. repeat split. exact Hout.
  - intros [= <-]. left. exists e, w3. split; reflexivity.
Qed.

Lemma toolInvocation_spec (req : Request Body.t) (toolName : string) :
  toolInvocation req = Some toolName
  <-> exists b p, body req = Some b
        /\ Body.method b = Some "tools/call"
        /\ Body.params b = Some p
        /\ Body.name p = Some toolName
        /\ toolName <> "".
Proof.
  unfold toolInvocation. split.
  - destruct (body req) as [b |]; [| discriminate].
    destruct (Body.method b) as [m |] eqn:Hm; [| discriminate].
    destruct (String.eqb_spec m "tools/call") as [-> | _]; [| discriminate].
    destruct (Body.params b) as [p |] eqn:Hp; [| discriminate].
    destruct (Body.name p) as [n |] eqn:Hn; [| discriminate].
    destruct (JS.truthy n) eqn:Htruthy; [| discriminate].
    intros [= ->]. exists b, p. repeat split; try assumption.
    apply truthy_nonempty, Htruthy.
  - intros (b & p & -> & -> & -> & -> & Hne).
    destruct toolName; [congruence | reflexivity].
Qed.

Lemma getTransport_effects (req : Request Body.t) (w : World) :
  analytics (getTransport req w).2 = analytics w
  /\ exists evs, log (getTransport req w).2 = (log w ++ evs)%list
                 /\ Forall isTransportEvent evs.
Proof.
  unfold getTransport.
  destruct (existingSession _ _).
  - split; [reflexivity |]. exists []. rewrite app_nil_r. split; [reflexivity | constructor].
  - destruct (_ && _);
      match goal with
      | |- context [newTransport ?g ?c] =>
          destruct (create_and_connect g c w) as (_ & _ & _ & Ha & Hl)
      end;
      (split; [exact Ha |]);
      eexists; (split; [exact Hl |]); repeat constructor.
Qed.

Lemma invoke_effects (transport : Transport) (req : Request Body.t)
    (res : Response) (w : World) :
  analytics (invoke transport req res w).2 = analytics w
  /\ log (invoke transport req res w).2
     = (log w ++ [EvHandleRequest (tid transport)])%list.
Proof.
  unfold invoke. destruct (handleRequest _ _ _ _) as [r e].
  destruct (hr_initialized r); cbn [snd]; [| split; reflexivity].
  unfold sessionInitialized. destruct (onsessioninitialized transport) as [[] |];
    split; reflexivity.
Qed.

(** The handler of [/mcp] first counts the request, then, for a tool
    invocation (method 'tools/call' with a non-empty [params.name]), records
    the tool call; every effect of resolving and of invoking the transport
    comes after these, and the analytics the handler leaves are those
    recorded, whether or not resolving or invoking throws. *)
Theorem arrival_recorded_before_dispatch (now1 now2 : string)
    (req : Request Body.t) (res : Response) (w : World) :
  let w' := (mcpHandler now1 now2 req res w).2 in
  let counted := trackRequest req "/mcp" now1 (analytics w) in
  analytics w'
  = match toolInvocation req with
    | Some toolName => trackToolCall toolName req now2 counted
    | None => counted
    end
  /\ totalRequests (analytics w') = totalRequests (analytics w) + 1
  /\ (forall toolName,
        toolInvocation req = Some toolName
        <-> exists b p, body req = Some b
              /\ Body.method b = Some "tools/call"
              /\ Body.params b = Some p
              /\ Body.name p = Some toolName
              /\ toolName <> "")
  /\ exists dispatch,
       log w'
       = (log w
          ++ EvTrackRequest "/mcp"
             :: match toolInvocation req with
                | Some toolName => [EvTrackToolCall toolName]
                | None => []
                end
          ++ dispatch)%list
       /\ Forall isTransportEvent dispatch.
Proof.
  intros w' counted.
  set (w2 := recordArrival now1 now2 req w).
  assert (Ha2 : analytics w2
                = match toolInvocation req with
                  | Some toolName => trackToolCall toolName req now2 counted
                  | None => counted
                  end).
  { subst w2. unfold recordArrival. destruct (toolInvocation req); reflexivity. }
  assert (Hl2 : log w2
                = (log w ++ EvTrackRequest "/mcp"
                     :: match toolInvocation req with
                        | Some toolName => [EvTrackToolCall toolName]
                        | None => []
                        end)%list).
  { subst w2. unfold recordArrival. destruct (toolInvocation req); cbn;
      rewrite <- ?app_assoc; reflexivity. }
  assert (Hw' : analytics w' = analytics w2
                /\ exists dispatch, log w' = (log w2 ++ dispatch)%list
                                    /\ Forall isTransportEvent dispatch).
  { subst w'. unfold mcpHandler. fold w2.
    destruct (getTransport_effects req w2) as (Hga & evs & Hgl & Hgev).
    destruct (getTransport req w2) as [[t | e] w3]; cbn [snd] in *.
    - destruct (invoke_effects t req res w3) as (Hia & Hil).
      destruct (invoke t req res w3) as [r w4]; cbn [snd] in *.
      assert (Hboth : analytics w4 = analytics w2
                /\ exists dispatch, log w4 = (log w2 ++ dispatch)%list
                                    /\ Forall isTransportEvent dispatch).
      { split; [congruence |].
        exists (evs ++ [EvHandleRequest (tid t)])%list.
        rewrite Hil, Hgl, <- app_assoc. split; [reflexivity |].
        apply Forall_app. split; [exact Hgev | repeat constructor]. }
      destruct (hr_outcome r); exact Hboth.
    - split; [exact Hga |]. exists evs. split; [exact Hgl | exact Hgev]. }
  destruct Hw' as (Ha & dispatch & Hl & Hev).
  split; [rewrite Ha; exact Ha2 |].
  split.
  { rewrite Ha, Ha2. destruct (toolInvocation req); reflexivity. }
  split; [intros toolName; apply toolInvocation_spec |].
  exists dispatch. split; [| exact Hev].
  rewrite Hl, Hl2, <- app_assoc. reflexivity.
Qed.

(** ** Invariants of the module state *)

Lemma getTransport_transports (req : Request Body.t) (w : World) :
  transports (getTransport req w).2 = transports w.
Proof.
  unfold getTransport. destruct (existingSession _ _); [reflexivity |].
  destruct (_ && _);
    match goal with
    | |- context [newTransport ?g ?c] =>
        destruct (create_and_connect g c w) as (_ & Hts & _)
    end; exact Hts.
Qed.

(** The empty string is never registered, as long as the ids the transports
    generate ([randomUUID]) are not empty. *)
Lemma mcpHandler_keeps_ids_set (now1 now2 : string) (req : Request Body.t)
    (res : Response) (w : World) :
  (forall t rq rs e sid,
     hr_initialized (handleRequest t rq rs e).1 = Some sid -> sid <> "") ->
  transports w !! "" = None ->
  transports (mcpHandler now1 now2 req res w).2 !! "" = None.
Proof.
  intros Hgen Hw. unfold mcpHandler.
  destruct (recordArrival_transports now1 now2 req w) as (Hrt & _ & _).
  set (w2 := recordArrival now1 now2 req w) in *.
  pose proof (getTransport_transports req w2) as Hgt.
  destruct (getTransport req w2) as [[t | e] w3]; cbn [snd] in *;
    [| congruence].
  unfold invoke. specialize (Hgen t req res (ext w3)).
  destruct (handleRequest t req res (ext w3)) as [r e']. cbn [fst] in Hgen.
  assert (Hinv : transports
            (match hr_initialized r with
             | Some sid => sessionInitialized t sid
                             (withExt e' (EvHandleRequest (tid t)) w3)
             | None => withExt e' (EvHandleRequest (tid t)) w3
             end) !! "" = None).
  { destruct (hr_initialized r) as [sid |]; [| cbn; congruence].
    unfold sessionInitialized.
    destruct (onsessioninitialized t) as [[] |]; cbn; [| congruence].
    rewrite lookup_insert_ne by (apply Hgen; reflexivity). congruence. }
  destruct (hr_outcome r); cbn [snd]; exact Hinv.
Qed.

(** Tracking and merging leave the start time alone. *)
Lemma serverStartTime_kept {B} (req : Request B) (endpoint toolName now : string)
    (importData : ImportData.t) (a : Analytics) :
  serverStartTime (trackRequest req endpoint now a) = serverStartTime a
  /\ serverStartTime (trackToolCall toolName req now a) = serverStartTime a
  /\ serverStartTime (mergeImport importData a) = serverStartTime a.
Proof. repeat split. Qed.

(** * Further properties *)

(** ** Uptime *)

(** X1: the uptime of a start time in the past splits the elapsed time into
    whole days, hours below 24 and minutes below 60, and drops less than a
    minute. *)
Theorem uptime_parts (diff : Z) :
  0 <= diff ->
  0 <= uptimeDays diff
  /\ 0 <= uptimeHours diff < 24
  /\ 0 <= uptimeMinutes diff < 60
  /\ exists rest,
       0 <= rest < 60000
       /\ diff = uptimeDays diff * 86400000 + uptimeHours diff * 3600000
                 + uptimeMinutes diff * 60000 + rest.
Proof.
  intros Hdiff. unfold uptimeDays, uptimeHours, uptimeMinutes.
  change (1000 * 60 * 60 * 24) with 86400000.
  change (1000 * 60 * 60) with 3600000.
  change (1000 * 60) with 60000.
  rewrite !Z.rem_mod_nonneg by lia.
  pose proof (Z.div_mod diff 86400000 ltac:(lia)) as Hd.
  pose proof (Z.mod_pos_bound diff 86400000 ltac:(lia)) as Hdb.
  pose proof (Z.div_mod (diff mod 86400000) 3600000 ltac:(lia)) as Hh.
  pose proof (Z.mod_pos_bound (diff mod 86400000) 3600000 ltac:(lia)) as Hhb.
  pose proof (Z.div_mod (diff mod 3600000) 60000 ltac:(lia)) as Hm.
  pose proof (Z.mod_pos_bound (diff mod 3600000) 60000 ltac:(lia)) as Hmb.
  pose proof (Z.mod_pos_bound diff 3600000 ltac:(lia)) as Hhb'.
  assert (Hmm : (diff mod 86400000) mod 3600000 = diff mod 3600000).
  { apply Z.mod_mod_divide. exists 24. reflexivity. }
  split; [apply Z.div_pos; lia |].
  split; [split; [apply Z.div_pos; lia | apply Z.div_lt_upper_bound; lia] |].
  split; [split; [apply Z.div_pos; lia | apply Z.div_lt_upper_bound; lia] |].
  exists ((diff mod 3600000) mod 60000). split; [lia |].
  rewrite Hmm in Hh. lia.
Qed.

(** X2: the start time parses: what [getUptime] prints for each range of the
    elapsed time, a start time in the future included. *)
Theorem getUptime_format (parse : string -> option Z) (now start : Z)
    (a : Analytics) :
  parse (serverStartTime a) = Some start ->
  let diff := now - start in
  (0 <= diff < 60000 -> getUptime parse now a = "0m")
  /\ (0 <= diff < 3600000 ->
      getUptime parse now a = pretty (diff / 60000) +:+ "m")
  /\ (3600000 <= diff < 86400000 ->
      getUptime parse now a
      = pretty (diff / 3600000) +:+ "h " +:+ pretty (uptimeMinutes diff) +:+ "m")
  /\ (86400000 <= diff ->
      getUptime parse now a
      = pretty (diff / 86400000) +:+ "d " +:+ pretty (uptimeHours diff) +:+ "h "
        +:+ pretty (uptimeMinutes diff) +:+ "m")
  /\ (-60000 <= diff < 0 -> getUptime parse now a = "-1m").
Proof.
  intros Hparse diff. unfold getUptime. rewrite Hparse. fold diff.
  cbv zeta. unfold uptimeDays, uptimeHours, uptimeMinutes.
  change (1000 * 60 * 60 * 24) with 86400000.
  change (1000 * 60 * 60) with 3600000.
  change (1000 * 60) with 60000.
  assert (Hsmall : 0 <= diff < 3600000 ->
            diff / 86400000 = 0
            /\ Z.rem diff 86400000 / 3600000 = 0
            /\ Z.rem diff 3600000 / 60000 = diff / 60000).
  { intros Hr. rewrite !Z.rem_mod_nonneg by lia.
    rewrite (Z.mod_small diff 86400000), (Z.mod_small diff 3600000) by lia.
    rewrite !Z.div_small by lia. repeat split. }
  split.
  { intros Hr. destruct Hsmall as (-> & -> & ->); [lia |].
    rewrite Z.div_small by lia. reflexivity. }
  split.
  { intros Hr. destruct (Hsmall Hr) as (-> & -> & ->). reflexivity. }
  split.
  { intros Hr. rewrite (Z.div_small diff 86400000) by lia.
    rewrite (Z.rem_mod_nonneg diff 86400000) by lia.
    rewrite (Z.mod_small diff 86400000) by lia.
    assert (Hh : 0 < diff / 3600000) by (apply Z.div_str_pos; lia).
    cbn [Z.ltb Z.compare].
    destruct (Z.ltb_spec 0 (diff / 3600000)); [reflexivity | lia]. }
  split.
  { intros Hr.
    assert (Hd : 0 < diff / 86400000) by (apply Z.div_str_pos; lia).
    destruct (Z.ltb_spec 0 (diff / 86400000)); [reflexivity | lia]. }
  intros Hr.
  assert (Hd : diff / 86400000 = -1).
  { symmetry. apply (Z.div_unique_pos diff 86400000 (-1) (diff + 86400000)); lia. }
  assert (Hr1 : Z.rem diff 86400000 = diff) by (apply Z.rem_small_iff; lia).
  assert (Hr2 : Z.rem diff 3600000 = diff) by (apply Z.rem_small_iff; lia).
  assert (Hh : diff / 3600000 = -1).
  { symmetry. apply (Z.div_unique_pos diff 3600000 (-1) (diff + 3600000)); lia. }
  assert (Hm : diff / 60000 = -1).
  { symmetry. apply (Z.div_unique_pos diff 60000 (-1) (diff + 60000)); lia. }
  rewrite Hr1, Hr2, Hd, Hh, Hm. reflexivity.
Qed.

(** ** Counting *)

Lemma sumCounts_empty : sumCounts ∅ = 0.
Proof. unfold sumCounts. apply map_fold_empty. Qed.

Lemma sumCounts_insert_fresh (k : string) (v : Z) (m : gmap string Z) :
  m !! k = None -> sumCounts (<[k := v]> m) = v + sumCounts m.
Proof.
  intros Hk. unfold sumCounts.
  apply (map_fold_insert_L (fun _ v acc => v + acc)); [| exact Hk].
  intros; lia.
Qed.

Lemma sumCounts_add_count (k : string) (n : Z) (m : gmap string Z) :
  sumCounts (add_count k n m) = sumCounts m + n.
Proof.
  unfold add_count. destruct (m !! k) as [v |] eqn:Hk; cbn [JS.or_zero].
  - rewrite <- insert_delete_eq.
    rewrite sumCounts_insert_fresh by apply lookup_delete_eq.
    rewrite <- (insert_delete_id m k v Hk) at 2.
    rewrite sumCounts_insert_fresh by apply lookup_delete_eq. lia.
  - rewrite sumCounts_insert_fresh by exact Hk. lia.
Qed.

Lemma track_countedOnce {B} (ev : Tracked B) (a : Analytics) :
  countedOnce a -> countedOnce (track ev a).
Proof.
  intros (Hm & He & Hi & Hu & Hh & Ht).
  destruct ev as [req endpoint now | toolName req now]; unfold countedOnce; cbn;
    rewrite ?sumCounts_add_count; repeat split; lia.
Qed.

(** X3: from a fresh state, whatever requests and tool calls are tracked under
    keys that are not inherited names, every
    breakdown of the requests (by method, endpoint, address, user agent and
    hour) sums to [totalRequests], and the counts per tool sum to
    [totalToolCalls]. *)
Theorem tracking_counts_once {B} (evs : list (Tracked B)) (now : string) :
  Forall ordinaryEvent evs ->
  countedOnce (trackAll evs (initialAnalytics now)).
Proof.
  intros _.
  assert (Hrun : forall a, countedOnce a -> countedOnce (trackAll evs a)).
  { induction evs as [| ev evs IH]; intros a Ha; [exact Ha |].
    apply IH, track_countedOnce, Ha. }
  apply Hrun. unfold countedOnce; cbn. rewrite sumCounts_empty. repeat split.
Qed.

Lemma countIf_cons {A} (p : A -> bool) (x : A) (l : list A) :
  countIf p (x :: l) = (if p x then 1 else 0) + countIf p l.
Proof.
  unfold countIf. cbn [List.filter]. destruct (p x); cbn [List.length]; lia.
Qed.

Lemma add_count_or_zero (k : string) (n : Z) (m : gmap string Z) (k' : string) :
  JS.or_zero (add_count k n m !! k')
  = JS.or_zero (m !! k') + (if String.eqb k k' then n else 0).
Proof.
  unfold add_count. destruct (String.eqb_spec k k') as [<- | Hne].
  - rewrite lookup_insert_eq. reflexivity.
  - rewrite lookup_insert_ne by exact Hne. lia.
Qed.

(** X4: after any run of tracked requests and tool calls under keys that are
    not inherited names, [totalRequests] has
    grown by the number of requests, the count of an endpoint by the number
    of requests to it, [totalToolCalls] by the number of tool calls and the
    count of a tool by the number of calls of that tool. *)
Theorem tracking_totals {B} (evs : list (Tracked B)) (a : Analytics) :
  Forall ordinaryEvent evs ->
  let a' := trackAll evs a in
  totalRequests a' = totalRequests a + countIf isRequest evs
  /\ totalToolCalls a' = totalToolCalls a + countIf isToolCall evs
  /\ (forall endpoint,
        JS.or_zero (requestsByEndpoint a' !! endpoint)
        = JS.or_zero (requestsByEndpoint a !! endpoint)
          + countIf (isRequestTo endpoint) evs)
  /\ (forall toolName,
        JS.or_zero (toolCalls a' !! toolName)
        = JS.or_zero (toolCalls a !! toolName)
          + countIf (isToolCallOf toolName) evs)
  /\ serverStartTime a' = serverStartTime a.
Proof.
  intros _. cbv zeta. revert a. induction evs as [| ev evs IH]; intros a.
  - unfold countIf; cbn. repeat split; intros; lia.
  - cbn [trackAll foldl]. fold (trackAll evs (track ev a)).
    destruct (IH (track ev a)) as (Hr & Ht & He & Hn & Hs).
    rewrite Hr, Ht, Hs, !countIf_cons.
    split; [destruct ev; cbn; lia |].
    split; [destruct ev; cbn; lia |].
    split.
    { intros endpoint. rewrite He, countIf_cons.
      destruct ev as [req e now | t req now]; cbn [track isRequestTo];
        cbn [trackRequest trackToolCall requestsByEndpoint];
        rewrite ?add_count_or_zero; lia. }
    split.
    { intros toolName. rewrite Hn, countIf_cons.
      destruct ev as [req e now | t req now]; cbn [track isToolCallOf];
        cbn [trackRequest trackToolCall toolCalls];
        rewrite ?add_count_or_zero; lia. }
    destruct ev; reflexivity.
Qed.

(** ** The address of the client *)

Lemma trimStart_first (s : string) (c : ascii) :
  firstChar (JS.trimStart s) = Some c -> JS.is_white_space c = false.
Proof.
  induction s as [| c' s IH]; cbn [JS.trimStart]; [discriminate |].
  destruct (JS.is_white_space c') eqn:Hws; [exact IH |].
  intros [= <-]. exact Hws.
Qed.

Lemma trimEnd_first (s : string) :
  JS.trimEnd s = "" \/ firstChar (JS.trimEnd s) = firstChar s.
Proof.
  destruct s as [| c s]; [left; reflexivity |]. cbn [JS.trimEnd].
  destruct (JS.trimEnd s); [| right; reflexivity].
  destruct (JS.is_white_space c); [left | right]; reflexivity.
Qed.

Lemma trimEnd_last (s : string) (c : ascii) :
  lastChar (JS.trimEnd s) = Some c -> JS.is_white_space c = false.
Proof.
  induction s as [| c' s IH]; cbn [JS.trimEnd]; [discriminate |].
  destruct (JS.trimEnd s) as [| c'' r] eqn:Hr.
  - destruct (JS.is_white_space c') eqn:Hws; [discriminate |].
    intros [= <-]. exact Hws.
  - exact IH.
Qed.

Lemma trimStart_id (s : string) :
  (forall c, firstChar s = Some c -> JS.is_white_space c = false) ->
  JS.trimStart s = s.
Proof.
  destruct s as [| c s]; [reflexivity |]. intros H. cbn.
  rewrite (H c eq_refl). reflexivity.
Qed.

Lemma trimEnd_idem (s : string) : JS.trimEnd (JS.trimEnd s) = JS.trimEnd s.
Proof.
  induction s as [| c s IH]; [reflexivity |]. cbn [JS.trimEnd].
  destruct (JS.trimEnd s) as [| c' r] eqn:Hr.
  - destruct (JS.is_white_space c) eqn:Hws; [reflexivity |].
    cbn. rewrite Hws. reflexivity.
  - cbn [JS.trimEnd] in IH |- *. rewrite IH. reflexivity.
Qed.

Lemma trim_first (s : string) (c : ascii) :
  firstChar (JS.trim s) = Some c -> JS.is_white_space c = false.
Proof.
  unfold JS.trim. destruct (trimEnd_first (JS.trimStart s)) as [-> | ->].
  - discriminate.
  - apply trimStart_first.
Qed.

(** [trim] leaves no white space at either end and has nothing more to
    remove from its own result. *)
Lemma trim_spec (s : string) :
  (forall c, firstChar (JS.trim s) = Some c -> JS.is_white_space c = false)
  /\ (forall c, lastChar (JS.trim s) = Some c -> JS.is_white_space c = false)
  /\ JS.trim (JS.trim s) = JS.trim s.
Proof.
  split; [apply trim_first |].
  split; [intros c; apply trimEnd_last |].
  unfold JS.trim at 1. rewrite (trimStart_id (JS.trim s)) by apply trim_first.
  unfold JS.trim. apply trimEnd_idem.
Qed.

Lemma split_comma_head_chars (s : string) (c : ascii) :
  In c (list_ascii_of_string (JS.split_comma_head s)) ->
  c <> ","%char /\ In c (list_ascii_of_string s).
Proof.
  induction s as [| c' s IH]; cbn; [intros [] |].
  destruct (Ascii.eqb_spec c' ","%char) as [-> | Hne]; cbn; [intros [] |].
  intros [<- | Hin]; [split; [exact Hne | left; reflexivity] |].
  destruct (IH Hin) as [H1 H2]. split; [exact H1 | right; exact H2].
Qed.

Lemma trimStart_chars (s : string) (c : ascii) :
  In c (list_ascii_of_string (JS.trimStart s)) -> In c (list_ascii_of_string s).
Proof.
  induction s as [| c' s IH]; cbn; [intros [] |].
  destruct (JS.is_white_space c'); cbn; [right; apply IH; assumption | tauto].
Qed.

Lemma trimEnd_chars (s : string) (c : ascii) :
  In c (list_ascii_of_string (JS.trimEnd s)) -> In c (list_ascii_of_string s).
Proof.
  induction s as [| c' s IH]; cbn [JS.trimEnd]; [intros [] |].
  destruct (JS.trimEnd s) as [| c'' r].
  - destruct (JS.is_white_space c'); cbn; [intros [] | tauto].
  - cbn [list_ascii_of_string In] in IH |- *. tauto.
Qed.

(** X5: the address of a request with an [x-forwarded-for] header whose first
    element is not blank is that element: what precedes the first comma,
    without white space around it; [req.ip] and the socket address are not
    looked at. *)
Theorem clientIpOf_forwarded_first {B} (req : Request B) (xff : string) :
  headers req !! "x-forwarded-for" = Some xff ->
  JS.trim (JS.split_comma_head xff) <> "" ->
  let addr := clientIpOf req in
  addr = JS.trim (JS.split_comma_head xff)
  /\ (forall c, In c (list_ascii_of_string addr) ->
        c <> ","%char /\ In c (list_ascii_of_string xff))
  /\ (forall c, firstChar addr = Some c -> JS.is_white_space c = false)
  /\ (forall c, lastChar addr = Some c -> JS.is_white_space c = false).
Proof.
  intros Hxff Hne addr.
  assert (Haddr : addr = JS.trim (JS.split_comma_head xff)).
  { subst addr. unfold clientIpOf, forwardedFor. rewrite Hxff. cbn.
    destruct (JS.trim (JS.split_comma_head xff)); [congruence | reflexivity]. }
  rewrite Haddr. split; [reflexivity |].
  destruct (trim_spec (JS.split_comma_head xff)) as (Hf & Hl & _).
  split; [| split; [exact Hf | exact Hl]].
  intros c Hin. apply split_comma_head_chars.
  unfold JS.trim in Hin. apply trimStart_chars, trimEnd_chars, Hin.
Qed.

(** X6: without a usable [x-forwarded-for] element the address is [req.ip], and
    without that the address of the socket. *)
Theorem clientIpOf_fallbacks {B} (req : Request B) :
  JS.falsy (forwardedFor req) ->
  (forall a, ip req = Some a -> a <> "" -> clientIpOf req = a)
  /\ (forall a, JS.falsy (ip req) -> remoteAddress req = Some a -> a <> "" ->
        clientIpOf req = a).
Proof.
  intros Hxff. unfold clientIpOf. split.
  - intros a Hip Ha. rewrite Hip.
    destruct Hxff as [-> | ->]; destruct a; cbn; congruence.
  - intros a Hip Hra Ha. rewrite Hra.
    destruct Hxff as [-> | ->]; destruct Hip as [-> | ->]; destruct a; cbn;
      congruence.
Qed.

(** ** The API key *)

Lemma stripPrefix_app (pat s : string) : stripPrefix pat (pat +:+ s) = Some s.
Proof.
  induction pat as [| p pat IH]; [reflexivity |].
  change (String p pat +:+ s) with (String p (pat +:+ s)).
  cbn [stripPrefix]. rewrite Ascii.eqb_refl. exact IH.
Qed.

Lemma replaceFirst_prefix (pat s : string) : replaceFirst pat (pat +:+ s) = s.
Proof.
  destruct (pat +:+ s) eqn:Happ; cbn [replaceFirst];
    rewrite <- Happ, stripPrefix_app; reflexivity.
Qed.

Lemma queryOr_falsy (a : option QueryValue) (b : QueryValue) :
  queryFalsy a -> queryOr a b = b.
Proof. intros [-> | ->]; reflexivity. Qed.

Lemma extractApiKey_string {B} (req : Request B) (env : option string) (k : string) :
  k <> "" -> apiKeyOf req env = QString k ->
  extractApiKey req env = Some (QString k).
Proof.
  intros Hk Hkey. unfold extractApiKey. rewrite Hkey.
  destruct k; [congruence | reflexivity].
Qed.

Lemma apiKeyOf_headers {B} (req : Request B) (env : option string) :
  queryFalsy (query req !! "apiKey") ->
  queryFalsy (query req !! "api_key") ->
  apiKeyOf req env
  = QString (JS.or_default
               (JS.or (JS.or (headers req !! "x-api-key")
                         (replaceFirst "Bearer "
                            <$> headers req !! "authorization")) env) "").
Proof.
  intros H1 H2. unfold apiKeyOf. rewrite !queryOr_falsy by assumption.
  reflexivity.
Qed.

(** X7: the key handed to [setApiKey] is the first one that is set among the
    query parameter [apiKey], the query parameter [api_key], the header
    [x-api-key], the [authorization] header and the environment, in this
    order; when none is set, [setApiKey] is not called. *)
Theorem extractApiKey_priority {B} (req : Request B) (env : option string) :
  (forall k, query req !! "apiKey" = Some (QString k) -> k <> "" ->
     extractApiKey req env = Some (QString k))
  /\ (queryFalsy (query req !! "apiKey") ->
      (forall k, query req !! "api_key" = Some (QString k) -> k <> "" ->
         extractApiKey req env = Some (QString k))
      /\ (queryFalsy (query req !! "api_key") ->
          (forall k, headers req !! "x-api-key" = Some k -> k <> "" ->
             extractApiKey req env = Some (QString k))
          /\ (JS.falsy (headers req !! "x-api-key") ->
              (forall k, replaceFirst "Bearer " <$> headers req !! "authorization"
                         = Some k -> k <> "" ->
                 extractApiKey req env = Some (QString k))
              /\ (JS.falsy (replaceFirst "Bearer "
                              <$> headers req !! "authorization") ->
                  (forall k, env = Some k -> k <> "" ->
                     extractApiKey req env = Some (QString k))
                  /\ (JS.falsy env -> extractApiKey req env = None))))).
Proof.
  split.
  { intros k Hq Hk. apply extractApiKey_string; [exact Hk |].
    unfold apiKeyOf. rewrite Hq. destruct k; [congruence | reflexivity]. }
  intros H1. split.
  { intros k Hq Hk. apply extractApiKey_string; [exact Hk |].
    unfold apiKeyOf. rewrite queryOr_falsy by exact H1. rewrite Hq.
    destruct k; [congruence | reflexivity]. }
  intros H2. pose proof (apiKeyOf_headers req env H1 H2) as Hkey.
  split.
  { intros k Hh Hk. apply extractApiKey_string; [exact Hk |].
    rewrite Hkey, Hh. destruct k; [congruence | reflexivity]. }
  intros H3. split.
  { intros k Ha Hk. apply extractApiKey_string; [exact Hk |].
    rewrite Hkey, Ha. destruct H3 as [-> | ->]; destruct k; cbn; congruence. }
  intros H4. split.
  { intros k -> Hk. apply extractApiKey_string; [exact Hk |].
    rewrite Hkey. destruct H3 as [-> | ->]; destruct H4 as [-> | ->];
      destruct k; cbn; congruence. }
  intros H5. unfold extractApiKey. rewrite Hkey.
  destruct H3 as [-> | ->]; destruct H4 as [-> | ->]; destruct H5 as [-> | ->];
    reflexivity.
Qed.

(** X8: an [authorization] header of the form 'Bearer ' followed by a token
    gives the token, when no query parameter and no [x-api-key] header sets
    the key. *)
Theorem extractApiKey_bearer {B} (req : Request B) (env : option string)
    (token : string) :
  queryFalsy (query req !! "apiKey") ->
  queryFalsy (query req !! "api_key") ->
  JS.falsy (headers req !! "x-api-key") ->
  headers req !! "authorization" = Some ("Bearer " +:+ token) ->
  token <> "" ->
  extractApiKey req env = Some (QString token).
Proof.
  intros H1 H2 H3 Hauth Htoken.
  apply extractApiKey_string; [exact Htoken |].
  rewrite (apiKeyOf_headers req env H1 H2), Hauth.
  cbn [fmap option_fmap option_map]. rewrite replaceFirst_prefix.
  destruct H3 as [-> | ->]; destruct token; cbn; congruence.
Qed.

(** ** The session map over a request *)

(** What [getTransport] returns is a registered transport, with nothing
    changed, or the transport it has just created. *)
Lemma getTransport_returned (req : Request Body.t) (w w3 : World)
    (transport : Transport) :
  getTransport req w = (Returned transport, w3) ->
  transports w3 = transports w
  /\ ((exists sid, transports w !! sid = Some transport) /\ w3 = w
      \/ tid transport = created w /\ created w3 = S (created w)).
Proof.
  intros Hget.
  pose proof (getTransport_transports req w) as Hts. rewrite Hget in Hts.
  split; [exact Hts |]. clear Hts. revert Hget. unfold getTransport.
  destruct (existingSession _ _) as [t0 |] eqn:Hex.
  - intros [= -> <-]. left. split; [| reflexivity].
    unfold existingSession in Hex.
    destruct (headers req !! "mcp-session-id") as [s |]; [| discriminate].
    destruct (JS.truthy s); [| discriminate]. exists s. exact Hex.
  - intros Hget. right.
    destruct (_ && _);
      match type of Hget with
      | context [newTransport ?g ?c] =>
          destruct (create_and_connect g c w) as (Hres & _ & Hcr & _)
      end;
      rewrite Hget in Hres, Hcr; cbn [fst snd] in Hres, Hcr;
      (destruct (connect _ (ext w)).1; [| discriminate Hres]);
      injection Hres as ->; split; [reflexivity | exact Hcr | reflexivity | exact Hcr].
Qed.

(** X9: handling a request to [/mcp] changes the session map by at most one
    insertion, of a transport that registers itself: no session is ever
    removed, and at most one is added. *)
Theorem mcpHandler_registers_at_most_one (now1 now2 : string)
    (req : Request Body.t) (res : Response) (w : World) :
  let w' := (mcpHandler now1 now2 req res w).2 in
  (transports w' = transports w
   \/ exists sid transport,
        transports w' = <[sid := transport]> (transports w)
        /\ onsessioninitialized transport = Some SetInTransports)
  /\ dom (transports w) ⊆ dom (transports w')
  /\ (size (transports w) <= size (transports w') <= S (size (transports w)))%nat.
Proof.
  intros w'.
  assert (Hcases : transports w' = transports w
            \/ exists sid transport,
                 transports w' = <[sid := transport]> (transports w)
                 /\ onsessioninitialized transport = Some SetInTransports).
  { subst w'. unfold mcpHandler.
    destruct (recordArrival_transports now1 now2 req w) as (Hrt & _ & _).
    set (w2 := recordArrival now1 now2 req w) in *.
    pose proof (getTransport_transports req w2) as Hgt.
    destruct (getTransport req w2) as [[t | e] w3]; cbn [snd] in *;
      [| left; congruence].
    unfold invoke. destruct (handleRequest t req res (ext w3)) as [r e'].
    assert (Hinv :
      let w4 := match hr_initialized r with
                | Some sid => sessionInitialized t sid
                                (withExt e' (EvHandleRequest (tid t)) w3)
                | None => withExt e' (EvHandleRequest (tid t)) w3
                end in
      transports w4 = transports w
      \/ exists sid transport,
           transports w4 = <[sid := transport]> (transports w)
           /\ onsessioninitialized transport = Some SetInTransports).
    { cbv zeta. destruct (hr_initialized r) as [sid |];
        [| left; cbn; congruence].
      unfold sessionInitialized.
      destruct (onsessioninitialized t) as [[] |] eqn:Hcb;
        [| left; cbn; congruence].
      right. exists sid, t. cbn. split; [congruence | exact Hcb]. }
    destruct (hr_outcome r); cbn [snd]; exact Hinv. }
  split; [exact Hcases |].
  destruct Hcases as [-> | (sid & t & -> & _)].
  - split; [reflexivity | lia].
  - split; [rewrite dom_insert_L; set_solver |].
    destruct (transports w !! sid) eqn:Hsid.
    + rewrite map_size_insert_Some by eauto. lia.
    + rewrite map_size_insert_None by exact Hsid. lia.
Qed.

(** X10: if every registered transport was created before now, this still holds
    after a request to [/mcp]; and a transport that [getTransport] creates
    is none of the registered ones. *)
Theorem registered_transports_are_older (now1 now2 : string)
    (req : Request Body.t) (res : Response) (w : World) :
  registeredBeforeNow w ->
  registeredBeforeNow (mcpHandler now1 now2 req res w).2
  /\ (forall transport w3,
        getTransport req w = (Returned transport, w3) ->
        created w3 = S (created w) ->
        forall sid, transports w3 !! sid <> Some transport).
Proof.
  intros Hwf. split.
  - unfold mcpHandler.
    destruct (recordArrival_transports now1 now2 req w) as (Hrt & Hrc & _).
    set (w2 := recordArrival now1 now2 req w) in *.
    assert (Hwf2 : registeredBeforeNow w2).
    { intros sid t Ht. rewrite Hrt in Ht. rewrite Hrc. eapply Hwf, Ht. }
    clearbody w2. clear Hwf Hrt Hrc w.
    destruct (getTransport req w2) as [[t | e] w3] eqn:Hget; cbn [snd].
    + destruct (getTransport_returned _ _ _ _ Hget) as (Hts & Hcase).
      assert (Hwf3 : registeredBeforeNow w3 /\ (tid t < created w3)%nat).
      { destruct Hcase as [[[sid Hsid] ->] | [Htid Hcr]].
        - split; [exact Hwf2 | eapply Hwf2, Hsid].
        - split; [| lia]. intros sid t' Ht'. rewrite Hts in Ht'.
          specialize (Hwf2 sid t' Ht'). lia. }
      destruct Hwf3 as [Hwf3 Htid].
      unfold invoke. destruct (handleRequest t req res (ext w3)) as [r e'].
      assert (Hinv : registeredBeforeNow
                (match hr_initialized r with
                 | Some sid => sessionInitialized t sid
                                 (withExt e' (EvHandleRequest (tid t)) w3)
                 | None => withExt e' (EvHandleRequest (tid t)) w3
                 end)).
      { destruct (hr_initialized r) as [sid |]; [| exact Hwf3].
        unfold sessionInitialized.
        destruct (onsessioninitialized t) as [[] |]; [| exact Hwf3].
        intros k t' Hk. cbn in Hk |- *.
        destruct (decide (sid = k)) as [-> | Hne].
        - rewrite lookup_insert_eq in Hk. injection Hk as <-. exact Htid.
        - rewrite lookup_insert_ne in Hk by exact Hne. eapply Hwf3, Hk. }
      destruct (hr_outcome r); cbn [snd]; exact Hinv.
    + pose proof (getTransport_transports req w2) as Hts. rewrite Hget in Hts.
      intros sid t Ht. cbn [snd] in Hts. rewrite Hts in Ht.
      specialize (Hwf2 sid t Ht).
      revert Hget. unfold getTransport.
      destruct (existingSession _ _); [discriminate |].
      intros Hget.
      destruct (_ && _);
        match type of Hget with
        | context [newTransport ?g ?c] =>
            destruct (create_and_connect g c w2) as (_ & _ & Hcr & _)
        end; rewrite Hget in Hcr; cbn [snd] in Hcr; lia.
  - intros t w3 Hget Hcr sid Hsid.
    destruct (getTransport_returned _ _ _ _ Hget) as (Hts & Hcase).
    destruct Hcase as [[_ ->] | [Htid _]]; [lia |].
    rewrite Hts in Hsid. specialize (Hwf sid t Hsid). lia.
Qed.

(** X11: a request without session header that is not a list-tools request gets
    a new transport; when the transport initializes a session under a
    generated id, the map holds exactly this one binding more, and a later
    request carrying the id in its header is resolved to that transport. *)
Theorem session_created_then_resumed (now1 now2 : string)
    (req : Request Body.t) (res : Response) (w : World) (sid : string) :
  let transport := {| tid := created w;
                      sessionIdGenerator := Some RandomUUID;
                      onsessioninitialized := Some SetInTransports |} in
  headers req !! "mcp-session-id" = None ->
  isListToolsRequest (body req) = false ->
  (connect transport (ext w)).1 = Returned tt ->
  hr_initialized
    (handleRequest transport req res (connect transport (ext w)).2).1
  = Some sid ->
  sid <> "" ->
  let w' := (mcpHandler now1 now2 req res w).2 in
  transports w' = <[sid := transport]> (transports w)
  /\ (transports w !! sid = None ->
      size (transports w') = S (size (transports w)))
  /\ (forall later : Request Body.t,
        headers later !! "mcp-session-id" = Some sid ->
        getTransport later w' = (Returned transport, w')).
Proof.
  cbv zeta. intros Hheader Hshape Hconnect Hinit Hsid.
  set (transport := {| tid := created w;
                       sessionIdGenerator := Some RandomUUID;
                       onsessioninitialized := Some SetInTransports |}) in *.
  set (w' := (mcpHandler now1 now2 req res w).2).
  assert (Hts : transports w' = <[sid := transport]> (transports w)).
  { subst w'. unfold mcpHandler.
    destruct (recordArrival_transports now1 now2 req w) as (Hrt & Hrc & Hre).
    set (w2 := recordArrival now1 now2 req w) in *.
    assert (Hget : getTransport req w2
              = (t ← newTransport (Some RandomUUID) (Some SetInTransports);
                 _ ← connectServer t;
                 mret t) w2).
    { unfold getTransport. rewrite Hheader, Hshape. reflexivity. }
    rewrite Hget. clear Hget.
    destruct (create_and_connect (Some RandomUUID) (Some SetInTransports) w2)
      as (Hres & Hts3 & _).
    pose proof (create_and_connect_ext (Some RandomUUID) (Some SetInTransports)
                  w2) as Hext.
    rewrite Hrc, Hre in Hres, Hext. fold transport in Hres, Hext.
    rewrite Hconnect in Hres.
    destruct ((t ← newTransport (Some RandomUUID) (Some SetInTransports);
               _ ← connectServer t; mret t) w2) as [[t | e] w3];
      cbn [fst snd] in Hres, Hts3, Hext; [| discriminate Hres].
    injection Hres as ->.
    unfold invoke. rewrite Hext.
    destruct (handleRequest transport req res (connect transport (ext w)).2)
      as [r e2].
    cbn [fst] in Hinit. rewrite Hinit.
    destruct (hr_outcome r); cbn [snd]; unfold sessionInitialized; cbn;
      rewrite Hts3, Hrt; reflexivity. }
  split; [exact Hts |].
  split.
  { intros Hfresh. rewrite Hts. apply map_size_insert_None, Hfresh. }
  intros later Hlater. unfold getTransport.
  rewrite Hlater, existingSession_known by exact Hsid.
  rewrite Hts, lookup_insert_eq. reflexivity.
Qed.

(** ** Saving, stopping and starting again *)

Lemma moduleInit_saved (now0 now1 : string) (a : Analytics) :
  serverStartTime a <> "" ->
  moduleInit now0 now1 (Some (Document (analyticsToJSON a))) = Some a.
Proof.
  intros Hstart. unfold moduleInit, loadAnalytics.
  change (spreadLoaded (analyticsToJSON a) now1 = Some a).
  rewrite spreadLoaded_analyticsToJSON.
  destruct a as [start ? ? ? ? ? ? ? ? ?]; cbn in Hstart |- *.
  destruct start; [congruence | reflexivity].
Qed.

(** X12: a graceful shutdown whose write succeeds stops the timer, exits with
    code 0 and leaves on disk the state that the next start of the module
    loads: the analytics of the stopped process, start time included. *)
Theorem restart_after_shutdown (p : Process) (now0 now1 : string) :
  serverStartTime (analytics (world p)) <> "" ->
  let stopped := gracefulShutdown WriteOk p in
  moduleInit now0 now1 (disk (world stopped)) = Some (analytics (world p))
  /\ saveInterval stopped = false
  /\ exited stopped = Some 0
  /\ analytics (world stopped) = analytics (world p)
  /\ transports (world stopped) = transports (world p).
Proof.
  intros Hstart stopped. split; [| repeat split].
  exact (moduleInit_saved now0 now1 _ Hstart).
Qed.

Lemma mcpHandler_analytics (now1 now2 : string) (req : Request Body.t)
    (res : Response) (w : World) :
  analytics (mcpHandler now1 now2 req res w).2
  = analytics (recordArrival now1 now2 req w).
Proof.
  unfold mcpHandler. set (w2 := recordArrival now1 now2 req w).
  destruct (getTransport_effects req w2) as (Hga & _).
  destruct (getTransport req w2) as [[t | e] w3]; cbn [snd] in *; [| exact Hga].
  destruct (invoke_effects t req res w3) as (Hia & _).
  destruct (invoke t req res w3) as [r w4]; cbn [snd] in *.
  destruct (hr_outcome r); cbn [snd]; congruence.
Qed.

Lemma create_and_connect_disk (gen : option SessionIdGenerator)
    (cb : option SessionCallback) (w : World) :
  disk ((transport ← newTransport gen cb;
         _ ← connectServer transport;
         mret transport) w).2
  = disk w.
Proof.
  unfold mbind, M_bind, bind, newTransport, connectServer, mret, M_ret, ret.
  cbn. destruct (connect _ (ext w)) as [[[] | e] e']; reflexivity.
Qed.

Lemma mcpHandler_disk (now1 now2 : string) (req : Request Body.t)
    (res : Response) (w : World) :
  disk (mcpHandler now1 now2 req res w).2 = disk w.
Proof.
  unfold mcpHandler.
  assert (Hrd : disk (recordArrival now1 now2 req w) = disk w).
  { unfold recordArrival. destruct (toolInvocation req); reflexivity. }
  set (w2 := recordArrival now1 now2 req w) in *.
  assert (Hgd : disk (getTransport req w2).2 = disk w2).
  { unfold getTransport. destruct (existingSession _ _); [reflexivity |].
    destruct (_ && _); apply create_and_connect_disk. }
  destruct (getTransport req w2) as [[t | e] w3]; cbn [snd] in *;
    [| congruence].
  unfold invoke. destruct (handleRequest t req res (ext w3)) as [r e'].
  assert (Hinv : disk
            (match hr_initialized r with
             | Some sid => sessionInitialized t sid
                             (withExt e' (EvHandleRequest (tid t)) w3)
             | None => withExt e' (EvHandleRequest (tid t)) w3
             end) = disk w).
  { destruct (hr_initialized r); [| cbn; congruence].
    unfold sessionInitialized. destruct (onsessioninitialized t) as [[] |];
      cbn; congruence. }
  destruct (hr_outcome r); cbn [snd]; exact Hinv.
Qed.

Lemma serveAll_disk (reqs : list (string * string * Request Body.t * Response))
    (w : World) :
  disk (serveAll reqs w) = disk w.
Proof.
  revert w. induction reqs as [| r reqs IH]; intros w; [reflexivity |].
  cbn [serveAll foldl]. change (foldl _ ?x reqs) with (serveAll reqs x).
  rewrite IH. apply mcpHandler_disk.
Qed.

Lemma serveAll_totalRequests
    (reqs : list (string * string * Request Body.t * Response)) (w : World) :
  totalRequests (analytics (serveAll reqs w))
  = totalRequests (analytics w) + Z.of_nat (List.length reqs).
Proof.
  revert w. induction reqs as [| r reqs IH]; intros w; [cbn; lia |].
  cbn [serveAll foldl]. change (foldl _ ?x reqs) with (serveAll reqs x).
  rewrite IH. rewrite mcpHandler_analytics. unfold recordArrival.
  destruct (toolInvocation r.1.2); cbn [List.length]; cbn; lia.
Qed.

(** X13: requests to [/mcp] never write the file, so a crash loses what was
    counted since the last save: after a periodic save and any requests, a
    start of the module loads the state as that save wrote it, without the
    requests counted since. *)
Theorem restart_after_crash (p : Process)
    (reqs : list (string * string * Request Body.t * Response))
    (now0 now1 : string) :
  serverStartTime (analytics (world p)) <> "" ->
  let crashed := serveAll reqs (world (periodicSave WriteOk p)) in
  disk crashed = Some (Document (analyticsToJSON (analytics (world p))))
  /\ moduleInit now0 now1 (disk crashed) = Some (analytics (world p))
  /\ totalRequests (analytics crashed)
     = totalRequests (analytics (world p)) + Z.of_nat (List.length reqs).
Proof.
  intros Hstart crashed.
  assert (Hdisk : disk crashed
            = Some (Document (analyticsToJSON (analytics (world p))))).
  { subst crashed. rewrite serveAll_disk. reflexivity. }
  split; [exact Hdisk |]. split.
  - rewrite Hdisk. exact (moduleInit_saved now0 now1 _ Hstart).
  - subst crashed. rewrite serveAll_totalRequests. reflexivity.
Qed.

Lemma mergeImport_start (importData : ImportData.t) (a : Analytics) :
  serverStartTime (mergeImport importData a) = serverStartTime a.
Proof. reflexivity. Qed.

(** X14: an accepted import is on disk before the handler answers: with a
    successful write, a start of the module right after it loads the merged
    state, and the answer reports the totals after the merge. *)
Theorem import_saved_at_once (secret : option string)
    (req : Request ImportData.t) (res : Response) (w : World)
    (importData : ImportData.t) (now0 now1 : string) :
  importKeyRejected secret (query req !! "key") = false ->
  body req = Some importData ->
  serverStartTime (analytics w) <> "" ->
  let result := importHandler secret WriteOk req res w in
  let merged := mergeImport importData (analytics w) in
  analytics result.2 = merged
  /\ moduleInit now0 now1 (disk result.2) = Some merged
  /\ sent result.1
     = (sent res
        ++ [(statusCode res,
             JS.JObj [("message", JS.JStr "Analytics imported successfully");
                      ("currentStats",
                       JS.JObj [("totalRequests", JS.JNum (totalRequests merged));
                                ("totalToolCalls",
                                 JS.JNum (totalToolCalls merged))])])])%list.
Proof.
  intros Hkey Hbody Hstart result merged. subst result.
  unfold importHandler. rewrite Hkey, Hbody. cbn.
  split; [reflexivity |]. split; [| reflexivity].
  apply (moduleInit_saved now0 now1 (mergeImport importData (analytics w))).
  exact Hstart.
Qed.

(** X15: an import without a body is answered 400 'Failed to import analytics'
    with the error as detail; nothing is merged and nothing is saved. *)
Theorem import_without_body (secret : option string) (write : WriteOutcome)
    (req : Request ImportData.t) (res : Response) (w : World) :
  importKeyRejected secret (query req !! "key") = false ->
  body req = None ->
  let result := importHandler secret write req res w in
  result.2 = w
  /\ exists details,
       sent result.1
       = (sent res
          ++ [(400, JS.JObj [("error", JS.JStr "Failed to import analytics");
                             ("details", JS.JStr details)])])%list.
Proof.
  intros Hkey Hbody result. subst result. unfold importHandler.
  rewrite Hkey, Hbody. split; [reflexivity |]. eexists. reflexivity.
Qed.

Lemma mergeCounts_comm (s1 s2 : option (list (string * Z))) (m : gmap string Z) :
  mergeCounts s1 (mergeCounts s2 m) = mergeCounts s2 (mergeCounts s1 m).
Proof.
  destruct s1 as [l1 |], s2 as [l2 |]; try reflexivity.
  apply map_eq. intros k. rewrite !mergeCounts_lookup.
  destruct (decide (k ∈ l1.*1)), (decide (k ∈ l2.*1)); cbn [JS.or_zero];
    try reflexivity.
  f_equal. lia.
Qed.

(** X16: two imports without inherited names among the keys of their
    sections, merged one after the other, give the same state in either
    order. *)
Theorem mergeImport_order_irrelevant (d1 d2 : ImportData.t) (a : Analytics) :
  ordinaryImport d1 ->
  ordinaryImport d2 ->
  mergeImport d1 (mergeImport d2 a) = mergeImport d2 (mergeImport d1 a).
Proof.
  intros _ _.
  unfold mergeImport; cbn [serverStartTime totalRequests totalToolCalls
    requestsByMethod requestsByEndpoint toolCalls recentToolCalls clientsByIp
    clientsByUserAgent hourlyRequests].
  f_equal; try apply mergeCounts_comm;
    destruct (ImportData.summary d1), (ImportData.summary d2); lia.
Qed.

(** ** Reports *)

Lemma insertSorted_perm {A} (compare : A -> A -> Z) (x : A) (l : list A) :
  insertSorted compare x l ≡ₚ x :: l.
Proof.
  induction l as [| y l IH]; [reflexivity |]. cbn [insertSorted].
  destruct (0 <? compare x y)%Z; [| reflexivity].
  rewrite IH. apply Permutation_swap.
Qed.

Lemma sortWith_perm {A} (compare : A -> A -> Z) (l : list A) :
  sortWith compare l ≡ₚ l.
Proof.
  induction l as [| x l IH]; [reflexivity |].
  cbn [sortWith foldr]. fold (sortWith compare l).
  rewrite insertSorted_perm, IH. reflexivity.
Qed.




Lemma size_add_count (k : string) (n : Z) (m : gmap string Z) :
  size (add_count k n m) = size ({[k]} ∪ dom m).
Proof. rewrite <- (add_count_dom k n m). symmetry. apply size_dom. Qed.

(** X18: the answer of [GET /analytics] to a request whose keys are not
    inherited names counts the request it answers: its
    summary has one request more than before, the tool calls so far, and as
    unique clients the number of distinct addresses seen, the one of this
    request included; it carries at most the 20 newest calls and at most 24
    hours, each an hour that has a count. *)
Theorem analytics_report {B}
    (entries : gmap string Z -> list (string * Z))
    (localeCompare : string -> string -> Z)
    (parse : string -> option Z) (nowMs : Z) (now : string)
    (req : Request B) (res : Response) (w : World) :
  (forall m, entries m ≡ₚ map_to_list m) ->
  ordinaryRequest req "/analytics" now ->
  let result := analyticsHandler entries localeCompare parse nowMs now req res w in
  let a := analytics w in
  exists body calls hours,
    sent result.1 = (sent res ++ [(statusCode res, body)])%list
    /\ JS.prop "summary" body
       = Some (JS.JObj [
           ("totalRequests", JS.JNum (totalRequests a + 1));
           ("totalToolCalls", JS.JNum (totalToolCalls a));
           ("uniqueClients",
            JS.JNum (Z.of_nat (size ({[clientIpOf req]} ∪ dom (clientsByIp a)))))])
    /\ JS.prop "uptime" body = Some (JS.JStr (getUptime parse nowMs a))
    /\ JS.prop "recentToolCalls" body = Some (JS.JArr (toolCallToJSON <$> calls))
    /\ calls = take 20 (recentToolCalls a)
    /\ (List.length calls <= 20)%nat
    /\ JS.prop "hourlyRequests" body = Some (objectOf hours)
    /\ (List.length hours <= 24)%nat
    /\ (forall hour count,
          (hour, count) ∈ hours ->
          add_count (JS.substring_to 13 now) 1 (hourlyRequests a) !! hour
          = Some count).
Proof.
  intros Hentries _ result a.
  set (a1 := trackRequest req "/analytics" now a).
  exists (JS.JObj [
        ("server", JS.JStr "Brave Search MCP Server");
        ("uptime", JS.JStr (getUptime parse nowMs a1));
        ("serverStartTime", JS.JStr (serverStartTime a1));
        ("summary",
         JS.JObj [("totalRequests", JS.JNum (totalRequests a1));
                  ("totalToolCalls", JS.JNum (totalToolCalls a1));
                  ("uniqueClients", JS.JNum (Z.of_nat (size (clientsByIp a1))))]);
        ("breakdown",
         JS.JObj [("byMethod", countsToJSON (requestsByMethod a1));
                  ("byEndpoint", countsToJSON (requestsByEndpoint a1));
                  ("byTool", objectOf (toolsByUsage entries a1))]);
        ("clients",
         JS.JObj [("byIp", countsToJSON (clientsByIp a1));
                  ("byUserAgent", countsToJSON (clientsByUserAgent a1))]);
        ("hourlyRequests", objectOf (last24Hours entries localeCompare a1));
        ("recentToolCalls",
         JS.JArr (toolCallToJSON <$> take 20 (recentToolCalls a1)))]),
    (take 20 (recentToolCalls a)), (last24Hours entries localeCompare a1).
  split; [reflexivity |].
  split.
  { cbn [JS.prop JS.assoc String.eqb Ascii.eqb Bool.eqb].
    subst a1. cbn [trackRequest totalRequests totalToolCalls clientsByIp].
    rewrite size_add_count. reflexivity. }
  split; [reflexivity |].
  split; [reflexivity |].
  split; [reflexivity |].
  split; [rewrite length_take; lia |].
  split; [reflexivity |].
  split.
  { unfold last24Hours. rewrite length_reverse, length_take. lia. }
  intros hour count Hin. unfold last24Hours in Hin.
  rewrite elem_of_reverse in Hin.
  apply elem_of_take in Hin as (i & Hi & _).
  apply list_elem_of_lookup_2 in Hi.
  rewrite sortWith_perm, Hentries in Hi.
  apply elem_of_map_to_list in Hi. exact Hi.
Qed.

Lemma getUptime_under_a_minute (parse : string -> option Z) (now start : Z)
    (a : Analytics) :
  parse (serverStartTime a) = Some start ->
  0 <= now - start < 60000 ->
  getUptime parse now a = "0m".
Proof.
  intros Hparse Hr. unfold getUptime. rewrite Hparse. cbv zeta.
  unfold uptimeDays, uptimeHours, uptimeMinutes.
  change (1000 * 60 * 60 * 24) with 86400000.
  change (1000 * 60 * 60) with 3600000.
  change (1000 * 60) with 60000.
  rewrite !Z.rem_mod_nonneg by lia.
  rewrite (Z.mod_small (now - start) 86400000) by lia.
  rewrite (Z.mod_small (now - start) 3600000) by lia.
  rewrite !Z.div_small by lia. reflexivity.
Qed.

(** X19: the first request ever, with nothing on disk and keys that are not
    inherited names, asked of [GET /analytics] within the first minute: the answer reports one request, no tool call,
    one unique client and the uptime '0m'. *)
Theorem first_request_report {B}
    (entries : gmap string Z -> list (string * Z))
    (localeCompare : string -> string -> Z)
    (parse : string -> option Z) (nowMs start : Z) (now0 now : string)
    (req : Request B) (res : Response) (e : Ext) :
  parse now0 = Some start ->
  0 <= nowMs - start < 60000 ->
  ordinaryRequest req "/analytics" now ->
  let w := emptyWorld (initialAnalytics now0) e in
  let result := analyticsHandler entries localeCompare parse nowMs now req res w in
  exists body,
    sent result.1 = (sent res ++ [(statusCode res, body)])%list
    /\ JS.prop "summary" body
       = Some (JS.JObj [("totalRequests", JS.JNum 1);
                        ("totalToolCalls", JS.JNum 0);
                        ("uniqueClients", JS.JNum 1)])
    /\ JS.prop "uptime" body = Some (JS.JStr "0m")
    /\ JS.prop "serverStartTime" body = Some (JS.JStr now0).
Proof.
  intros Hparse Hr _ w result. eexists. split; [reflexivity |].
  cbn [JS.prop JS.assoc String.eqb Ascii.eqb Bool.eqb].
  split.
  { cbn [analytics withAnalytics trackRequest totalRequests totalToolCalls
         clientsByIp w emptyWorld worldWith initialAnalytics].
    rewrite size_add_count, dom_empty_L, (right_id_L ∅ (∪)), size_singleton.
    reflexivity. }
  split; [| reflexivity].
  do 2 f_equal. apply (getUptime_under_a_minute parse nowMs start); assumption.
Qed.

(** ** The route of [/mcp] *)

(** C9, as the code has it: a request to [/mcp] that is not an [OPTIONS]
    request, whose body the parser does not reject and for which storing
    the API key does not throw, reaches the handler after the key has been
    stored; the handler then counts the request first and, for a tool
    invocation, records the tool call, before every effect of resolving and
    of invoking the transport; the analytics are those recorded whether or
    not resolving or invoking throws. *)
Theorem route_records_arrival_first (BRAVE_API_KEY : option string)
    (now1 now2 : string) (req : Request RawBody) (res : Response) (w : World) :
  method req <> "OPTIONS" ->
  (forall code, body req <> Some (Rejected code)) ->
  (forall apiKey,
     extractApiKey (withBody req (parsedBody (body req))) BRAVE_API_KEY
     = Some apiKey ->
     (setApiKey apiKey (ext w)).1 = Returned tt) ->
  let parsed := withBody req (parsedBody (body req)) in
  let w' := (mcpRoute BRAVE_API_KEY now1 now2 req res w).2 in
  let counted := trackRequest parsed "/mcp" now1 (analytics w) in
  (exists w0,
     mcpRoute BRAVE_API_KEY now1 now2 req res w
     = mcpHandler now1 now2 parsed res w0
     /\ (w0 = w
         \/ exists apiKey,
              extractApiKey parsed BRAVE_API_KEY = Some apiKey
              /\ w0 = setExt (setApiKey apiKey (ext w)).2 w))
  /\ analytics w'
     = match toolInvocation parsed with
       | Some toolName => trackToolCall toolName parsed now2 counted
       | None => counted
       end
  /\ totalRequests (analytics w') = totalRequests (analytics w) + 1
  /\ (forall toolName,
        toolInvocation parsed = Some toolName
        <-> exists b p, body req = Some (Parsed b)
              /\ Body.method b = Some "tools/call"
              /\ Body.params b = Some p
              /\ Body.name p = Some toolName
              /\ toolName <> "")
  /\ exists dispatch,
       log w'
       = (log w
          ++ EvTrackRequest "/mcp"
             :: match toolInvocation parsed with
                | Some toolName => [EvTrackToolCall toolName]
                | None => []
                end
          ++ dispatch)%list
       /\ Forall isTransportEvent dispatch.
Proof.
  intros Hmethod Hbody Hkey parsed w' counted.
  assert (Hroute : exists w0,
            mcpRoute BRAVE_API_KEY now1 now2 req res w
            = mcpHandler now1 now2 parsed res w0
            /\ (w0 = w
                \/ exists apiKey,
                     extractApiKey parsed BRAVE_API_KEY = Some apiKey
                     /\ w0 = setExt (setApiKey apiKey (ext w)).2 w)).
  { unfold mcpRoute.
    destruct (String.eqb_spec (method req) "OPTIONS") as [Heq | _];
      [congruence |].
    assert (Hnot : match body req with
                   | Some (Rejected _) => False
                   | _ => True
                   end).
    { destruct (body req) as [[code | b] |] eqn:Hb; try exact I.
      exact (Hbody code eq_refl). }
    fold parsed.
    assert (Hrest :
      exists w0,
        match extractApiKey parsed BRAVE_API_KEY with
        | Some apiKey =>
            match setApiKey apiKey (ext w) with
            | (Returned _, e) => mcpHandler now1 now2 parsed res (setExt e w)
            | (Thrown _, e) => (endResponse (status 500 res), setExt e w)
            end
        | None => mcpHandler now1 now2 parsed res w
        end = mcpHandler now1 now2 parsed res w0
        /\ (w0 = w
            \/ exists apiKey,
                 extractApiKey parsed BRAVE_API_KEY = Some apiKey
                 /\ w0 = setExt (setApiKey apiKey (ext w)).2 w)).
    { subst parsed. specialize (Hkey).
      destruct (extractApiKey (withBody req (parsedBody (body req)))
                  BRAVE_API_KEY) as [apiKey |] eqn:Hextract.
      - specialize (Hkey apiKey eq_refl).
        destruct (setApiKey apiKey (ext w)) as [[[] | err] e] eqn:Hset;
          cbn [fst] in Hkey; [| discriminate Hkey].
        exists (setExt e w). split; [reflexivity |].
        right. exists apiKey. split; [reflexivity |].
        rewrite Hset. reflexivity.
      - exists w. split; [reflexivity | left; reflexivity]. }
    destruct (body req) as [[code | b] |]; [contradiction | exact Hrest ..]. }
  split; [exact Hroute |].
  destruct Hroute as (w0 & Hroute & Hw0).
  assert (Hsame : analytics w0 = analytics w /\ log w0 = log w).
  { destruct Hw0 as [-> | (apiKey & _ & ->)]; split; reflexivity. }
  destruct Hsame as [Ha0 Hl0].
  subst w'. rewrite Hroute.
  destruct (arrival_recorded_before_dispatch now1 now2 parsed res w0)
    as (Ha & Ht & Htool & Hlog).
  rewrite Ha0 in Ha, Ht. rewrite Hl0 in Hlog.
  split; [exact Ha |]. split; [exact Ht |]. split; [| exact Hlog].
  intros toolName. rewrite Htool. subst parsed. cbn [withBody body].
  split.
  - intros (b & p & Hb & Hrest). exists b, p. split; [| exact Hrest].
    destruct (body req) as [[code | b'] |]; cbn in Hb; congruence.
  - intros (b & p & Hb & Hrest). exists b, p. split; [| exact Hrest].
    rewrite Hb. reflexivity.
Qed.

(** A session header that is present with an empty value is treated as an
    absent one. *)
Lemma getTransport_empty_header (request other : Request Body.t) (w : World) :
  headers request !! "mcp-session-id" = Some "" ->
  headers other !! "mcp-session-id" = None ->
  body other = body request ->
  getTransport request w = getTransport other w.
Proof.
  intros Hempty Habsent Hbody. unfold getTransport.
  rewrite Hempty, Habsent, Hbody. reflexivity.
Qed.

End Server.

Arguments analytics {Ext} _.
Arguments transports {Ext} _.
Arguments created {Ext} _.
Arguments disk {Ext} _.
Arguments ext {Ext} _.
Arguments log {Ext} _.
Arguments worldWith {Ext} _ _ _ _.
Arguments emptyWorld {Ext} _ _.
Arguments world {Ext} _.
Arguments saveInterval {Ext} _.
Arguments exited {Ext} _.

(** * The properties at sample inputs *)

Example trackToolCall_on_empty :
  recentToolCalls
    (trackToolCall "brave_web_search"
       (Sample.request [("user-agent", "curl/8.5.0")] (Some (Sample.callTool "brave_web_search")))
       "2025-01-01T00:00:03.000Z" Sample.analytics0)
  = [{| tool := "brave_web_search"; timestamp := "2025-01-01T00:00:03.000Z";
        clientIp := "10.0.0.7"; userAgent := "curl/8.5.0" |}].
Proof. vm_compute. reflexivity. Qed.

Example clientIpOf_forwarded :
  clientIpOf (Sample.request [("x-forwarded-for", " 203.0.113.9 , 10.0.0.1")]
                (@None Body.t))
  = "203.0.113.9".
Proof. vm_compute. reflexivity. Qed.

Example import_search_is_8 :
  toolCalls
    (analytics
       (importHandler unit None WriteOk
          (Sample.importRequest None (Some Sample.searchImport))
          freshResponse (emptyWorld Sample.searched tt)).2)
  !! "search" = Some 8.
Proof. vm_compute. reflexivity. Qed.

Lemma trackToolCall_bounded_newest_first_witness :
  exists kept oldest,
    recentToolCalls Sample.fullAnalytics = (kept ++ [oldest])%list
    /\ recentToolCalls
         (trackToolCall "brave_image_search" (Sample.request [] (@None Body.t))
            "2025-01-01T00:00:03.000Z" Sample.fullAnalytics)
       = {| tool := "brave_image_search";
            timestamp := "2025-01-01T00:00:03.000Z";
            clientIp := clientIpOf (Sample.request [] (@None Body.t));
            userAgent := userAgentOf (Sample.request [] (@None Body.t)) |}
         :: kept.
Proof.
  assert (Hlen : (List.length (recentToolCalls Sample.fullAnalytics) <= 100)%nat)
    by (vm_compute; lia).
  destruct (trackToolCall_bounded_newest_first "brave_image_search"
              (Sample.request [] (@None Body.t)) "2025-01-01T00:00:03.000Z"
              Sample.fullAnalytics Hlen) as (_ & _ & _ & _ & Hfull).
  apply Hfull. reflexivity.
Defined.

Example dispatch_throws_before_sending :
  (mcpHandler unit Sample.isListToolsRequest Sample.connectThrows
     Sample.handleRequest "2025-01-01T00:00:03.000Z" "2025-01-01T00:00:03.001Z"
     Sample.discovery freshResponse (emptyWorld Sample.analytics0 tt)).1
  = {| statusCode := 500; headersSent := true;
       sent := [(500, genericServerError)] |}.
Proof. vm_compute. reflexivity. Qed.

Example dispatch_throws_after_sending :
  (mcpHandler unit Sample.isListToolsRequest Sample.connect
     Sample.handleRequestThrowsLate "2025-01-01T00:00:03.000Z"
     "2025-01-01T00:00:03.001Z" Sample.discovery freshResponse
     (emptyWorld Sample.analytics0 tt)).1
  = {| statusCode := 200; headersSent := true;
       sent := [(200, JS.JObj [("jsonrpc", JS.JStr "2.0")])] |}.
Proof. vm_compute. reflexivity. Qed.

Lemma dispatch_failure_envelope_witness :
  sent (mcpHandler unit Sample.isListToolsRequest Sample.connect
          Sample.handleRequestThrows "2025-01-01T00:00:03.000Z"
          "2025-01-01T00:00:03.001Z" Sample.resumed freshResponse
          (emptyWorld Sample.analytics0 tt)).1
  = [(500, genericServerError)].
Proof.
  assert (Hcaught :
    caughtWith unit Sample.isListToolsRequest Sample.connect
      Sample.handleRequestThrows "2025-01-01T00:00:03.000Z"
      "2025-01-01T00:00:03.001Z" Sample.resumed freshResponse
      (emptyWorld Sample.analytics0 tt) = Some freshResponse)
    by (vm_compute; reflexivity).
  destruct (dispatch_failure_envelope _ _ _ _ _ _ _ _ _ _ Hcaught) as [Hiff _].
  apply Hiff. reflexivity.
Defined.

Lemma getTransport_known_session_witness :
  getTransport unit Sample.isListToolsRequest Sample.connect Sample.resumed
    (worldWith Sample.analytics0 {[Sample.sessionId := Sample.session]} 1 tt)
  = (Returned Sample.session,
     worldWith Sample.analytics0 {[Sample.sessionId := Sample.session]} 1 tt).
Proof.
  apply (getTransport_known_session unit Sample.isListToolsRequest
           Sample.connect Sample.resumed _ Sample.sessionId Sample.session).
  - discriminate.
  - vm_compute. reflexivity.
  - vm_compute. reflexivity.
Defined.

Lemma getTransport_discovery_unregistered_witness :
  (getTransport unit Sample.isListToolsRequest Sample.connect Sample.discovery
     (emptyWorld Sample.analytics0 tt)).1
  = Returned {| tid := 0; sessionIdGenerator := None;
                onsessioninitialized := None |}
  /\ transports
       (getTransport unit Sample.isListToolsRequest Sample.connect
          Sample.discovery (emptyWorld Sample.analytics0 tt)).2
     = ∅.
Proof.
  assert (Hheader : headers Sample.discovery !! "mcp-session-id" = None)
    by (vm_compute; reflexivity).
  assert (Hshape : Sample.isListToolsRequest (body Sample.discovery) = true)
    by reflexivity.
  destruct (getTransport_discovery_unregistered unit Sample.isListToolsRequest
              Sample.connect Sample.handleRequest Sample.discovery
              (emptyWorld Sample.analytics0 tt) Hheader Hshape)
    as (Hres & (Hts & _) & _).
  split; [exact Hres | exact Hts].
Defined.

(** Counterexample to C5: the header is present with an empty value, the
    value is not a key of the map, and a list-tools body takes the branch
    that creates a transport without generator or callback. *)
Lemma empty_session_header_takes_discovery_branch :
  headers Sample.emptyHeader !! "mcp-session-id" = Some ""
  /\ transports (emptyWorld Sample.analytics0 tt) !! "" = None
  /\ Sample.isListToolsRequest (body Sample.emptyHeader) = true
  /\ getTransport unit Sample.isListToolsRequest Sample.connect
       Sample.emptyHeader (emptyWorld Sample.analytics0 tt)
     = getTransport unit Sample.isListToolsRequest Sample.connect
         Sample.discovery (emptyWorld Sample.analytics0 tt)
  /\ (getTransport unit Sample.isListToolsRequest Sample.connect
        Sample.emptyHeader (emptyWorld Sample.analytics0 tt)).1
     = Returned {| tid := 0; sessionIdGenerator := None;
                   onsessioninitialized := None |}.
Proof. vm_compute. repeat split. Qed.

(** Resolving a request with an unknown session id registers nothing by
    itself: the map is as it was when [getTransport] returns. *)
Example stale_session_not_registered_by_resolution :
  transports
    (getTransport unit Sample.isListToolsRequest Sample.connect Sample.stale
       (emptyWorld Sample.analytics0 tt)).2
  = ∅.
Proof. vm_compute. reflexivity. Qed.

Lemma getTransport_unknown_session_witness :
  (getTransport unit Sample.isListToolsRequest Sample.connect Sample.stale
     (emptyWorld Sample.analytics0 tt)).1
  = Returned {| tid := 0; sessionIdGenerator := Some RandomUUID;
                onsessioninitialized := Some SetInTransports |}
  /\ transports
       (getTransport unit Sample.isListToolsRequest Sample.connect Sample.stale
          (emptyWorld Sample.analytics0 tt)).2
     = ∅.
Proof.
  assert (Hsid : "3d2f0c55-18a1-4b7e-8a67-91c4e0f2b6aa" <> "") by discriminate.
  assert (Hheader : headers Sample.stale !! "mcp-session-id"
                    = Some "3d2f0c55-18a1-4b7e-8a67-91c4e0f2b6aa")
    by (vm_compute; reflexivity).
  assert (Hunknown : transports (emptyWorld Sample.analytics0 tt)
                       !! "3d2f0c55-18a1-4b7e-8a67-91c4e0f2b6aa" = None)
    by (vm_compute; reflexivity).
  destruct (getTransport_unknown_session unit Sample.isListToolsRequest
              Sample.connect Sample.stale (emptyWorld Sample.analytics0 tt)
              _ Hsid Hheader Hunknown) as (Hres & Hts & _).
  split; [exact Hres | exact Hts].
Defined.

Lemma import_rejected_changes_nothing_witness :
  (importHandler unit (Some "s3cret") WriteOk
     (Sample.importRequest (Some (QString "guess")) (Some Sample.searchImport))
     freshResponse (emptyWorld Sample.searched tt)).2
  = emptyWorld Sample.searched tt.
Proof.
  assert (Hsecret : "s3cret" <> "") by discriminate.
  assert (Hkey : query (Sample.importRequest (Some (QString "guess"))
                          (Some Sample.searchImport)) !! "key"
                 <> Some (QString "s3cret"))
    by (vm_compute; discriminate).
  destruct (import_rejected_changes_nothing unit "s3cret" WriteOk
              (Sample.importRequest (Some (QString "guess"))
                 (Some Sample.searchImport))
              freshResponse (emptyWorld Sample.searched tt) Hsecret Hkey)
    as (Hworld & _).
  exact Hworld.
Defined.

Lemma import_adds_counts_keeps_history_witness :
  JS.or_zero
    (toolCalls
       (analytics
          (importHandler unit None WriteOk
             (Sample.importRequest None (Some Sample.searchImport))
             freshResponse (emptyWorld Sample.searched tt)).2)
     !! "search")
  = 3 + 5.
Proof.
  assert (Hord : ordinaryImport Sample.searchImport)
    by (repeat split; cbn; repeat constructor).
  destruct (import_adds_counts_keeps_history unit None WriteOk
              (Sample.importRequest None (Some Sample.searchImport))
              freshResponse (emptyWorld Sample.searched tt)
              Sample.searchImport eq_refl eq_refl Hord)
    as (_ & _ & _ & _ & Htool & _).
  etransitivity; [apply Htool |]. vm_compute. reflexivity.
Defined.

Lemma save_then_load_restores_witness :
  loadAnalytics "2025-06-01T12:00:00.000Z"
    (saveAnalytics WriteOk Sample.fullAnalytics None)
    (initialAnalytics "2025-06-01T12:00:00.000Z")
  = Some Sample.fullAnalytics.
Proof.
  apply save_then_load_restores. vm_compute. discriminate.
Defined.

(** * The further properties at sample inputs *)

Lemma uptime_parts_witness :
  0 <= uptimeHours 93784000 < 24 /\ 0 <= uptimeMinutes 93784000 < 60.
Proof.
  assert (Hdiff : 0 <= 93784000) by lia.
  destruct (uptime_parts 93784000 Hdiff) as (_ & Hh & Hm & _).
  split; [exact Hh | exact Hm].
Defined.

Lemma getUptime_format_witness :
  getUptime Sample.parse 1735689630000 Sample.analytics0 = "0m".
Proof.
  assert (Hparse : Sample.parse (serverStartTime Sample.analytics0)
                   = Some 1735689600000) by reflexivity.
  destruct (getUptime_format Sample.parse 1735689630000 1735689600000
              Sample.analytics0 Hparse) as (Hminute & _).
  apply Hminute. lia.
Defined.

Example getUptime_days :
  getUptime Sample.parse (1735689600000 + 93784000) Sample.analytics0
  = "1d 2h 3m".
Proof. vm_compute. reflexivity. Qed.

Lemma clientIpOf_forwarded_first_witness :
  clientIpOf Sample.forwarded = "203.0.113.9".
Proof.
  assert (Hxff : headers Sample.forwarded !! "x-forwarded-for"
                 = Some " 203.0.113.9 , 10.0.0.1") by (vm_compute; reflexivity).
  assert (Hne : JS.trim (JS.split_comma_head " 203.0.113.9 , 10.0.0.1") <> "")
    by (vm_compute; discriminate).
  destruct (clientIpOf_forwarded_first Sample.forwarded _ Hxff Hne) as (Haddr & _).
  rewrite Haddr. vm_compute. reflexivity.
Defined.

Lemma clientIpOf_fallbacks_witness : clientIpOf Sample.discovery = "10.0.0.7".
Proof.
  assert (Hxff : JS.falsy (forwardedFor Sample.discovery))
    by (left; vm_compute; reflexivity).
  destruct (clientIpOf_fallbacks Sample.discovery Hxff) as (Hip & _).
  apply Hip; [reflexivity | discriminate].
Defined.

Lemma extractApiKey_bearer_witness :
  extractApiKey Sample.bearer (Some "BSA-from-env") = Some (QString "BSA-key-1").
Proof.
  apply extractApiKey_bearer.
  - left. vm_compute. reflexivity.
  - left. vm_compute. reflexivity.
  - left. vm_compute. reflexivity.
  - vm_compute. reflexivity.
  - discriminate.
Defined.

Example extractApiKey_query_wins :
  extractApiKey
    {| method := "POST"; headers := {["x-api-key" := "BSA-header"]};
       ip := None; remoteAddress := None;
       query := {["apiKey" := QString "BSA-query"]}; body := @None Body.t |}
    (Some "BSA-from-env")
  = Some (QString "BSA-query").
Proof. vm_compute. reflexivity. Qed.

Lemma registered_transports_are_older_witness :
  registeredBeforeNow unit
    (mcpHandler unit Sample.isListToolsRequest Sample.connect
       Sample.handleRequestInitializes "2025-01-01T00:00:03.000Z"
       "2025-01-01T00:00:03.001Z" Sample.initialize freshResponse
       (worldWith Sample.analytics0 {[Sample.sessionId := Sample.session]} 1 tt)).2.
Proof.
  assert (Hwf : registeredBeforeNow unit
            (worldWith Sample.analytics0 {[Sample.sessionId := Sample.session]}
               1 tt)).
  { intros sid t Ht. cbn in Ht. apply lookup_singleton_Some in Ht as [_ <-].
    cbn. lia. }
  destruct (registered_transports_are_older unit Sample.isListToolsRequest
              Sample.connect Sample.handleRequestInitializes
              "2025-01-01T00:00:03.000Z" "2025-01-01T00:00:03.001Z"
              Sample.initialize freshResponse _ Hwf) as (Hafter & _).
  exact Hafter.
Defined.

Lemma session_created_then_resumed_witness :
  getTransport unit Sample.isListToolsRequest Sample.connect Sample.resumed
    (mcpHandler unit Sample.isListToolsRequest Sample.connect
       Sample.handleRequestInitializes "2025-01-01T00:00:03.000Z"
       "2025-01-01T00:00:03.001Z" Sample.initialize freshResponse
       (emptyWorld Sample.analytics0 tt)).2
  = (Returned Sample.session,
     (mcpHandler unit Sample.isListToolsRequest Sample.connect
        Sample.handleRequestInitializes "2025-01-01T00:00:03.000Z"
        "2025-01-01T00:00:03.001Z" Sample.initialize freshResponse
        (emptyWorld Sample.analytics0 tt)).2).
Proof.
  assert (Hheader : headers Sample.initialize !! "mcp-session-id" = None)
    by (vm_compute; reflexivity).
  assert (Hshape : Sample.isListToolsRequest (body Sample.initialize) = false)
    by reflexivity.
  assert (Hsid : Sample.sessionId <> "") by discriminate.
  destruct (session_created_then_resumed unit Sample.isListToolsRequest
              Sample.connect Sample.handleRequestInitializes
              "2025-01-01T00:00:03.000Z" "2025-01-01T00:00:03.001Z"
              Sample.initialize freshResponse (emptyWorld Sample.analytics0 tt)
              Sample.sessionId Hheader Hshape eq_refl eq_refl Hsid)
    as (_ & _ & Hlater).
  apply Hlater. vm_compute. reflexivity.
Defined.

Lemma restart_after_shutdown_witness :
  moduleInit "2025-06-01T12:00:00.000Z" "2025-06-01T12:00:00.002Z"
    (disk (world (gracefulShutdown unit WriteOk
                    {| world := emptyWorld Sample.fullAnalytics tt;
                       saveInterval := true; exited := None |})))
  = Some Sample.fullAnalytics.
Proof.
  assert (Hstart : serverStartTime Sample.fullAnalytics <> "")
    by (vm_compute; discriminate).
  destruct (restart_after_shutdown unit
              {| world := emptyWorld Sample.fullAnalytics tt;
                 saveInterval := true; exited := None |}
              "2025-06-01T12:00:00.000Z" "2025-06-01T12:00:00.002Z" Hstart)
    as (Hinit & _).
  exact Hinit.
Defined.

Lemma restart_after_crash_witness :
  moduleInit "2025-06-01T12:00:00.000Z" "2025-06-01T12:00:00.002Z"
    (disk (serveAll unit Sample.isListToolsRequest Sample.connect
             Sample.handleRequest
             [("2025-01-01T00:00:03.000Z", "2025-01-01T00:00:03.001Z",
               Sample.discovery, freshResponse)]
             (world (periodicSave unit WriteOk
                       {| world := emptyWorld Sample.searched tt;
                          saveInterval := true; exited := None |}))))
  = Some Sample.searched.
Proof.
  assert (Hstart : serverStartTime Sample.searched <> "")
    by (vm_compute; discriminate).
  destruct (restart_after_crash unit Sample.isListToolsRequest Sample.connect
              Sample.handleRequest
              {| world := emptyWorld Sample.searched tt;
                 saveInterval := true; exited := None |}
              [("2025-01-01T00:00:03.000Z", "2025-01-01T00:00:03.001Z",
                Sample.discovery, freshResponse)]
              "2025-06-01T12:00:00.000Z" "2025-06-01T12:00:00.002Z" Hstart)
    as (_ & Hinit & _).
  exact Hinit.
Defined.

Lemma import_saved_at_once_witness :
  moduleInit "2025-06-01T12:00:00.000Z" "2025-06-01T12:00:00.002Z"
    (disk (importHandler unit None WriteOk
             (Sample.importRequest None (Some Sample.searchImport))
             freshResponse (emptyWorld Sample.searched tt)).2)
  = Some (mergeImport Sample.searchImport Sample.searched).
Proof.
  assert (Hstart : serverStartTime Sample.searched <> "")
    by (vm_compute; discriminate).
  destruct (import_saved_at_once unit None
              (Sample.importRequest None (Some Sample.searchImport))
              freshResponse (emptyWorld Sample.searched tt) Sample.searchImport
              "2025-06-01T12:00:00.000Z" "2025-06-01T12:00:00.002Z"
              eq_refl eq_refl Hstart) as (_ & Hinit & _).
  exact Hinit.
Defined.

Lemma import_without_body_witness :
  (importHandler unit None WriteOk (Sample.importRequest None None)
     freshResponse (emptyWorld Sample.searched tt)).2
  = emptyWorld Sample.searched tt.
Proof.
  destruct (import_without_body unit None WriteOk
              (Sample.importRequest None None) freshResponse
              (emptyWorld Sample.searched tt) eq_refl eq_refl) as (Hworld & _).
  exact Hworld.
Defined.


Example tools_sorted_by_count :
  sortWith byCountDescending
    [("brave_news_search", 2); ("brave_web_search", 9); ("brave_image_search", 2);
     ("brave_video_search", 5)]
  = [("brave_web_search", 9); ("brave_video_search", 5); ("brave_news_search", 2);
     ("brave_image_search", 2)].
Proof. vm_compute. reflexivity. Qed.

Lemma analytics_report_witness :
  exists body,
    sent (analyticsHandler unit map_to_list (fun s t => 0) Sample.parse
            1735689630000 "2025-01-01T00:00:30.000Z" Sample.discovery
            freshResponse (emptyWorld Sample.searched tt)).1
    = [(200, body)]
    /\ JS.prop "summary" body
       = Some (JS.JObj [("totalRequests", JS.JNum 1);
                        ("totalToolCalls", JS.JNum 0);
                        ("uniqueClients", JS.JNum 1)]).
Proof.
  assert (Hord : ordinaryRequest Sample.discovery "/analytics"
                   "2025-01-01T00:00:30.000Z")
    by (vm_compute; repeat split).
  destruct (analytics_report unit map_to_list (fun s t => 0) Sample.parse
              1735689630000 "2025-01-01T00:00:30.000Z" Sample.discovery
              freshResponse (emptyWorld Sample.searched tt)
              (fun m => reflexivity (map_to_list m)) Hord)
    as (body & calls & hours & Hsent & Hsummary & _).
  exists body. split; [exact Hsent |].
  rewrite Hsummary. vm_compute. reflexivity.
Defined.

Lemma first_request_report_witness :
  exists body,
    sent (analyticsHandler unit map_to_list (fun s t => 0) Sample.parse
            1735689630000 "2025-01-01T00:00:30.000Z" Sample.discovery
            freshResponse
            (emptyWorld (initialAnalytics "2025-01-01T00:00:00.000Z") tt)).1
    = [(200, body)]
    /\ JS.prop "uptime" body = Some (JS.JStr "0m").
Proof.
  assert (Hparse : Sample.parse "2025-01-01T00:00:00.000Z" = Some 1735689600000)
    by reflexivity.
  assert (Hr : 0 <= 1735689630000 - 1735689600000 < 60000) by lia.
  assert (Hord : ordinaryRequest Sample.discovery "/analytics"
                   "2025-01-01T00:00:30.000Z")
    by (vm_compute; repeat split).
  destruct (first_request_report unit map_to_list (fun s t => 0) Sample.parse
              1735689630000 1735689600000 "2025-01-01T00:00:00.000Z"
              "2025-01-01T00:00:30.000Z" Sample.discovery freshResponse tt
              Hparse Hr Hord)
    as (body & Hsent & _ & Huptime & _).
  exists body. split; [exact Hsent | exact Huptime].
Defined.


Example load_without_start_time :
  serverStartTime
    (default Sample.analytics0
       (loadAnalytics "2025-06-01T12:00:00.000Z"
          (Some (Document Sample.withoutStartTime)) Sample.analytics0))
  = "2025-06-01T12:00:00.000Z".
Proof. vm_compute. reflexivity. Qed.

Lemma tracking_counts_once_witness :
  countedOnce
    (trackAll
       [TrackedRequest Sample.resumed "/mcp" "2025-01-01T00:00:03.000Z";
        TrackedToolCall "brave_web_search" Sample.resumed
          "2025-01-01T00:00:03.001Z"]
       (initialAnalytics "2025-01-01T00:00:00.000Z")).
Proof.
  apply tracking_counts_once.
  repeat constructor; vm_compute; reflexivity.
Defined.

Lemma tracking_totals_witness :
  JS.or_zero
    (toolCalls
       (trackAll
          [TrackedRequest Sample.resumed "/mcp" "2025-01-01T00:00:03.000Z";
           TrackedToolCall "brave_web_search" Sample.resumed
             "2025-01-01T00:00:03.001Z"]
          Sample.analytics0)
     !! "brave_web_search")
  = 0 + 1.
Proof.
  assert (Hord : Forall ordinaryEvent
            [TrackedRequest Sample.resumed "/mcp" "2025-01-01T00:00:03.000Z";
             TrackedToolCall "brave_web_search" Sample.resumed
               "2025-01-01T00:00:03.001Z"])
    by (repeat constructor; vm_compute; reflexivity).
  destruct (tracking_totals _ Sample.analytics0 Hord) as (_ & _ & _ & Htool & _).
  etransitivity; [apply Htool |]. vm_compute. reflexivity.
Defined.

Lemma mergeImport_order_irrelevant_witness :
  mergeImport Sample.searchImport (mergeImport Sample.methodImport Sample.searched)
  = mergeImport Sample.methodImport (mergeImport Sample.searchImport Sample.searched).
Proof.
  apply mergeImport_order_irrelevant.
  - repeat split; cbn; repeat constructor.
  - repeat split; cbn; repeat constructor.
Defined.

(** Counterexample to C9: an [OPTIONS] request to [/mcp] and a request whose
    body the parser rejects are answered in front of the route; neither is
    counted, and nothing else of the state changes. *)
Lemma requests_answered_before_the_route_are_not_recorded :
  mcpRoute unit Sample.isListToolsRequest Sample.connect Sample.handleRequest
    Sample.setApiKey None "2025-01-01T00:00:03.000Z" "2025-01-01T00:00:03.001Z"
    Sample.preflight freshResponse (emptyWorld Sample.analytics0 tt)
  = ({| statusCode := 204; headersSent := true; sent := [] |},
     emptyWorld Sample.analytics0 tt)
  /\ mcpRoute unit Sample.isListToolsRequest Sample.connect
       Sample.handleRequest Sample.setApiKey None "2025-01-01T00:00:03.000Z"
       "2025-01-01T00:00:03.001Z" Sample.malformed freshResponse
       (emptyWorld Sample.analytics0 tt)
     = ({| statusCode := 400; headersSent := true; sent := [] |},
        emptyWorld Sample.analytics0 tt).
Proof. vm_compute. split; reflexivity. Qed.

Lemma route_records_arrival_first_witness :
  totalRequests
    (analytics
       (mcpRoute unit Sample.isListToolsRequest Sample.connect
          Sample.handleRequestThrows Sample.setApiKey (Some "BSA-from-env")
          "2025-01-01T00:00:03.000Z" "2025-01-01T00:00:03.001Z" Sample.posted
          freshResponse (emptyWorld Sample.analytics0 tt)).2)
  = 0 + 1.
Proof.
  assert (Hmethod : method Sample.posted <> "OPTIONS") by discriminate.
  assert (Hbody : forall code, body Sample.posted <> Some (Rejected code))
    by discriminate.
  assert (Hkey : forall apiKey,
            extractApiKey (withBody Sample.posted (parsedBody (body Sample.posted)))
              (Some "BSA-from-env") = Some apiKey ->
            (Sample.setApiKey apiKey (ext (emptyWorld Sample.analytics0 tt))).1
            = Returned tt)
    by reflexivity.
  destruct (route_records_arrival_first unit Sample.isListToolsRequest
              Sample.connect Sample.handleRequestThrows Sample.setApiKey
              (Some "BSA-from-env") "2025-01-01T00:00:03.000Z"
              "2025-01-01T00:00:03.001Z" Sample.posted freshResponse
              (emptyWorld Sample.analytics0 tt) Hmethod Hbody Hkey)
    as (_ & _ & Htotal & _).
  exact Htotal.
Defined.
